(** * Smart-Study-Planner: the deterministic parts of [agents.py] and [fileapp.py]

  A shallow embedding of the timetable partitioner
  ([create_timetable_direct]), of the two response wrappers
  ([run_timetable_planner], [run_question_generation_agent]) and of the
  scoring loop of [display_enhanced_quiz_results], followed by the
  properties the specification states about them. *)

From Stdlib Require Import ZArith List Lia Floats Uint63.
From Stdlib Require Import Strings.String Strings.Ascii.
From stdpp Require Import base list strings gmap pretty sorting.

Local Open Scope string_scope.
Local Open Scope list_scope.
Local Open Scope Z_scope.

(** ** Python primitives used by the two source files *)

Module Py.

(** The exceptions that the modelled lines can meet. *)
Inductive exn : Type :=
| ZeroDivisionError
| JSONDecodeError
| OtherException (msg : string).

(** A call either returns a value or raises. *)
Inductive result (A : Type) : Type :=
| Returned (a : A)
| Raised (e : exn).
Arguments Returned {A} a.
Arguments Raised {A} e.

Definition bind {A B : Type} (c : result A) (k : A -> result B) : result B :=
  match c with
  | Returned a => k a
  | Raised e => Raised e
  end.

(** [try: c  except <caught>: h e]: an exception outside [caught]
    keeps propagating. *)
Definition try_except {A : Type} (c : result A) (caught : exn -> bool)
    (h : exn -> result A) : result A :=
  match c with
  | Returned a => Returned a
  | Raised e => if caught e then h e else Raised e
  end.

Definition is_JSONDecodeError (e : exn) : bool :=
  match e with JSONDecodeError => true | _ => false end.

(** [except Exception] catches every exception of this model. *)
Definition is_Exception (e : exn) : bool := true.

(** [a // b] on integers: floor division, [ZeroDivisionError] when
    [b == 0]. *)
Definition floordiv (a b : Z) : result Z :=
  if b =? 0 then Raised ZeroDivisionError else Returned (a / b).

(** [range(n)] *)
Definition range (n : Z) : list Z := seqZ 0 n.

(** Index normalisation of a slice bound (step 1). *)
Definition clamp_index (len i : Z) : Z :=
  if i <? 0 then Z.max 0 (i + len) else Z.min i len.

(** [l[start:stop]] *)
Definition slice {A : Type} (l : list A) (start stop : Z) : list A :=
  let len := Z.of_nat (length l) in
  let lo := clamp_index len start in
  let hi := clamp_index len stop in
  take (Z.to_nat (hi - lo)) (drop (Z.to_nat lo) l).

(** Truth value of a list: [if day_plan:] *)
Definition truthy {A : Type} (l : list A) : bool :=
  match l with [] => false | _ :: _ => true end.

(** [str.lower] on the ASCII letters; every other character is kept.
    (No character outside ASCII lowers to one of the letters of
    "essay", so the comparison in the partitioner is not affected.) *)
Definition lower_ascii (c : ascii) : ascii :=
  let n := nat_of_ascii c in
  if ((65 <=? n) && (n <=? 90))%nat then ascii_of_nat (n + 32) else c.

Fixpoint lower (s : string) : string :=
  match s with
  | EmptyString => EmptyString
  | String c s' => String (lower_ascii c) (lower s')
  end.

(** A naive [datetime]: the proleptic day number of its date and the
    microseconds elapsed since midnight. *)
Record datetime : Type := { ordinal : Z; micros : Z }.

Definition us_per_day : Z := 86400000000.

Definition to_micros (d : datetime) : Z := ordinal d * us_per_day + micros d.

(** [(a - b).days]: a [timedelta] is normalised so that its seconds and
    microseconds are non-negative, hence [days] is the floor. *)
Definition timedelta_days (a b : datetime) : Z :=
  (to_micros a - to_micros b) / us_per_day.

(** [datetime.strptime(s, "%Y-%m-%d")] of a well-formed date: midnight
    of that day. *)
Definition midnight (day_number : Z) : datetime :=
  {| ordinal := day_number; micros := 0 |}.

(** [int / int] and [float * int]: binary64, through the kernel's
    primitive floats. Exact for the integers below 2^53. *)
Definition float_of_int (z : Z) : float := PrimFloat.of_uint63 (Uint63.of_Z z).

Definition truediv (a b : Z) : float :=
  PrimFloat.div (float_of_int a) (float_of_int b).

(** [x >= n] for a float [x] and an integer [n] *)
Definition float_ge_int (x : float) (n : Z) : bool :=
  PrimFloat.leb (float_of_int n) x.

End Py.

#[global] Instance result_ret : MRet Py.result := @Py.Returned.
#[global] Instance result_bind : MBind Py.result := fun A B k c => Py.bind c k.

(** ** agents.py *)

Module Agents.
Import Py.

(** A syllabus is a [dict] from subject to its topics; iteration follows
    insertion order, which the association list keeps. *)
Definition syllabus : Type := list (string * list string).

Record assignment : Type :=
  { subject : string; topic : string; suggested_hours : Z }.

Inductive entry_type : Type := study | revision.

(** The ["topics"] field is a list for a study day and a string for a
    revision day. *)
Inductive topics_field : Type :=
| Detailed (l : list assignment)
| Label (s : string).

Record day_entry : Type :=
  { day : Z; type : entry_type; topics : topics_field }.

(** [[(subject, topic) for subject, topics in syllabus.items()
      for topic in topics]] *)
Definition topic_list_of (s : syllabus) : list (string * string) :=
  flat_map (fun '(subject, topics) => map (fun topic => (subject, topic)) topics) s.

Definition detailed_topic (p : string * string) : assignment :=
  let '(subject, topic) := p in
  {| subject := subject;
     topic := topic;
     suggested_hours := if negb (String.eqb (lower subject) "essay") then 2 else 1 |}.

(** Body of [for i in range(study_days)]. *)
Definition study_step (topic_list : list (string * string))
    (total_topics topics_per_day : Z) (plan : list day_entry) (i : Z)
    : list day_entry :=
  let start_idx := i * topics_per_day in
  let end_idx := Z.min ((i + 1) * topics_per_day) total_topics in
  let day_plan := slice topic_list start_idx end_idx in
  if truthy day_plan then
    let detailed_topics := map detailed_topic day_plan in
    plan ++ [ {| day := i + 1; type := study; topics := Detailed detailed_topics |} ]
  else plan.

(** Body of [for j in range(revision_days)]. *)
Definition revision_step (study_days : Z) (plan : list day_entry) (j : Z)
    : list day_entry :=
  plan ++ [ {| day := study_days + j + 1; type := revision;
               topics := Label "Revise all covered topics" |} ].

(** [create_timetable_direct]. [today] is what [datetime.today()]
    returns during the call and [target] is the parsed [end_date]. *)
Definition create_timetable_direct (today : datetime) (syllabus : syllabus)
    (target : datetime) : result (list day_entry) :=
  let days := Z.max 1 (timedelta_days target today) in
  let topic_list := topic_list_of syllabus in
  let total_topics := Z.of_nat (length topic_list) in
  weeks ← floordiv days 7;
  let revision_days := Z.max 1 weeks in
  let study_days := days - revision_days in
  topics_per_day ←
    (if 0 <? study_days
     then (q ← floordiv total_topics study_days; mret (Z.max 1 q))
     else mret total_topics);
  let plan := fold_left (study_step topic_list total_topics topics_per_day)
                        (range study_days) [] in
  let plan := fold_left (revision_step study_days) (range revision_days) plan in
  mret plan.

(** *** The wrappers around the gateway

    What lies behind the gateway is outside the repository: the JSON
    codec, the agent built by [get_timetable_planner_agent] and the
    tool object that [@tool] makes of [generate_questions]. Each is a
    parameter, and each call may return or raise. *)

Inductive value (json : Type) : Type :=
| VStr (s : string)          (* a [str] *)
| VJson (j : json)           (* any other object *)
| VEmptyList                 (* [[]] *)
| VNone.                     (* [None] *)
Arguments VStr {json} s.
Arguments VJson {json} j.
Arguments VEmptyList {json}.
Arguments VNone {json}.

Section Wrappers.
Variable json : Type.
Variable json_loads : string -> result json.
Variable json_dumps : syllabus -> string.
Variable get_timetable_planner_agent : result (string -> result (value json)).
Variable generate_questions : string -> Z -> result (value json).

Definition timetable_prompt (syllabus_json end_date : string) : string :=
  "Create a detailed timetable for syllabus: " +:+ syllabus_json +:+
  " with end date: " +:+ end_date +:+ ". Include subtopics and suggested hours.".

Definition run_timetable_planner (syllabus : syllabus) (end_date : string)
    : result (value json) :=
  try_except
    (agent ← get_timetable_planner_agent;
     let syllabus_json := json_dumps syllabus in
     result ← agent (timetable_prompt syllabus_json end_date);
     match result with
     | VStr s =>
         try_except (j ← json_loads s; mret (VJson j))
                    is_JSONDecodeError
                    (fun _ => mret result)
     | _ => mret result
     end)
    is_Exception
    (fun e => mret VEmptyList).

Definition run_question_generation_agent (exam_name : string) (num_questions : Z)
    : result (value json) :=
  try_except
    (result ← generate_questions exam_name num_questions;
     match result with
     | VStr s =>
         try_except (parsed_result ← json_loads s; mret (VJson parsed_result))
                    is_JSONDecodeError
                    (fun e => mret VNone)
     | _ => mret result
     end)
    is_Exception
    (fun e => mret VNone).
End Wrappers.

End Agents.

(** ** fileapp.py *)

Module FileApp.
Import Py.

(** What a quiz answer can be: the option picked in the radio group, or
    [None] while nothing is picked. *)
Inductive answer_value : Type := ANone | AStr (s : string).

#[global] Instance answer_value_eq_dec : EqDecision answer_value.
Proof. solve_decision. Defined.

(** One question of the quiz; [dict.get] is used on every key, so each
    may be absent. *)
Record question : Type :=
  { question_text : option string;
    question_options : list string;
    question_answer : option answer_value;
    question_topic : option string }.

(** [quiz_data]: the ["questions"] key may be absent. *)
Record quiz : Type := { questions : option (list question) }.

Record quiz_results : Type :=
  { score : Z;
    total_questions : Z;
    wrong_topics : list string;
    percentage : float;
    grade : string }.

(** [f"q_{idx}"] *)
Definition answer_key (idx : nat) : string := "q_" +:+ pretty idx.

(** [enumerate(l)] *)
Definition enumerate {A : Type} (l : list A) : list (nat * A) := imap pair l.

Definition is_correct (user_answers : gmap string answer_value)
    (idx : nat) (question : question) : bool :=
  let user_answer := default (AStr "") (user_answers !! answer_key idx) in
  let correct_answer := default (AStr "") (question_answer question) in
  bool_decide (user_answer = correct_answer).

(** Body of the scoring loop, on the pair [(score, wrong_topics)]. *)
Definition score_step (user_answers : gmap string answer_value)
    (st : Z * list string) (iq : nat * question) : Z * list string :=
  let '(score, wrong_topics) := st in
  let '(idx, question) := iq in
  if is_correct user_answers idx question then (score + 1, wrong_topics)
  else
    let topic := default ("Question " +:+ pretty (idx + 1)%nat) (question_topic question) in
    (score, wrong_topics ++ [topic]).

Definition grade_of (percentage : float) : string :=
  if float_ge_int percentage 80 then "A"
  else if float_ge_int percentage 60 then "B"
  else "C".

(** The computing part of [display_enhanced_quiz_results]; [None] is the
    early return on an empty quiz. *)
Definition display_enhanced_quiz_results (quiz_data : quiz)
    (user_answers : gmap string answer_value) : option quiz_results :=
  let questions := default [] (questions quiz_data) in
  if negb (truthy questions) then None
  else
    let total_questions := Z.of_nat (length questions) in
    let '(score, wrong_topics) :=
      fold_left (score_step user_answers) (enumerate questions) (0, []) in
    let percentage := PrimFloat.mul (truediv score total_questions) (float_of_int 100) in
    Some {| score := score;
            total_questions := total_questions;
            wrong_topics := wrong_topics;
            percentage := percentage;
            grade := grade_of percentage |}.

End FileApp.

(** ** Notions the properties are stated with *)

Module Plan.
Import Py Agents.

(** [D]: the day count the partitioner works with. *)
Definition days_left (today target : datetime) : Z :=
  Z.max 1 (timedelta_days target today).

Definition revision_days_of (D : Z) : Z := Z.max 1 (D / 7).

Definition study_days_of (D : Z) : Z := D - revision_days_of D.

Definition topics_per_day_of (T S : Z) : Z :=
  if 0 <? S then Z.max 1 (T / S) else T.

(** Number of windows of [tpd] topics that are not empty, among the first
    [S] windows of a list of [T] topics. *)
Definition windows_used (T tpd S : Z) : Z :=
  if 0 <? S then Z.min S ((T + tpd - 1) / tpd) else 0.

Definition window (tl : list (string * string)) (T tpd i : Z) : list (string * string) :=
  slice tl (i * tpd) (Z.min ((i + 1) * tpd) T).

Definition window_entry (tl : list (string * string)) (T tpd i : Z) : day_entry :=
  {| day := i + 1; type := study;
     topics := Detailed (map detailed_topic (window tl T tpd i)) |}.

Definition revision_entry (S j : Z) : day_entry :=
  {| day := S + j + 1; type := revision;
     topics := Label "Revise all covered topics" |}.

Definition is_study (e : day_entry) : bool :=
  match type e with study => true | revision => false end.

Definition is_revision (e : day_entry) : bool :=
  match type e with study => false | revision => true end.

(** The (subject, topic) pairs an entry schedules. *)
Definition scheduled_in (e : day_entry) : list (string * string) :=
  match topics e with
  | Detailed l => map (fun a => (subject a, topic a)) l
  | Label _ => []
  end.

(** All pairs scheduled on study days, in plan order. *)
Definition scheduled (plan : list day_entry) : list (string * string) :=
  flat_map scheduled_in (List.filter is_study plan).

Definition study_count (plan : list day_entry) : Z :=
  Z.of_nat (length (List.filter is_study plan)).

Definition revision_count (plan : list day_entry) : Z :=
  Z.of_nat (length (List.filter is_revision plan)).

(** The day indices are exactly [1 .. emitted study days + revision days]. *)
Definition indices_contiguous (plan : list day_entry) : Prop :=
  map day plan = seqZ 1 (study_count plan + revision_count plan).

Definition equal_ignoring_case (s t : string) : bool :=
  String.eqb (lower s) (lower t).

(** What an entry looks like, by type. *)
Definition well_formed_entry (e : day_entry) : Prop :=
  match type e, topics e with
  | study, Detailed l => l <> []
  | revision, Label s => s = "Revise all covered topics"
  | _, _ => False
  end.

Definition hours_rule (a : assignment) : Prop :=
  suggested_hours a = if equal_ignoring_case (subject a) "essay" then 1 else 2.

Definition hours_rule_entry (e : day_entry) : Prop :=
  match topics e with
  | Detailed l => Forall hours_rule l
  | Label _ => True
  end.

End Plan.

(** ** Sample inputs *)

Module Samples.
Import Py Agents.

(** A morning: 10:00 on day 739000. *)
Definition this_morning : datetime :=
  {| ordinal := 739000; micros := 36000000000 |}.

Definition in_days (n : Z) : datetime := midnight (739000 + n).

Definition five_topics : syllabus :=
  [("Math", ["Algebra"; "Geometry"; "Calculus"; "Trigonometry"; "Statistics"])].

Definition two_subjects : syllabus :=
  [("Math", ["Algebra"; "Geometry"]); ("Essay", ["Part A"])].

End Samples.

(** ** Quiz notions and a sample quiz *)

Module Quiz.
Import Py FileApp.

(** Number of questions on which the selected answer equals the question's
    answer field. *)
Definition matched_count (user_answers : gmap string answer_value)
    (qs : list question) : nat :=
  length (List.filter (fun iq => is_correct user_answers (fst iq) (snd iq)) (enumerate qs)).

Definition ask (answer : string) (topic : option string) : question :=
  {| question_text := Some "Which one?";
     question_options := ["a"; "b"; "c"; "d"];
     question_answer := Some (AStr answer);
     question_topic := topic |}.

Definition sample_questions : list question :=
  [ask "a" None; ask "b" (Some "Optics"); ask "c" None; ask "d" (Some "Algebra"); ask "a" None].

(** Right on questions 0, 1 and 2, wrong on 3 and 4. *)
Definition sample_answers : gmap string answer_value :=
  <["q_0" := AStr "a"]> (<["q_1" := AStr "b"]> (<["q_2" := AStr "c"]>
  (<["q_3" := AStr "a"]> (<["q_4" := AStr "b"]> ∅)))).

(** A gateway whose every response fails to parse. *)
Definition never_parses (s : string) : result unit := Raised JSONDecodeError.

Definition plain_text_agent (prompt : string) : result (Agents.value unit) :=
  Returned (Agents.VStr "Day 1: Algebra").

Definition plain_text_tool (exam_name : string) (n : Z) : result (Agents.value unit) :=
  Returned (Agents.VStr "Day 1: Algebra").

End Quiz.

(** ** Text clean-up of a model response (agents.py) *)

Module Text.
Import Py.

(** A [str] by its characters; a character is a code point below 256. *)
Definition str : Type := list ascii.

Definition lit (s : string) : str := list_ascii_of_string s.

(** [str.isspace] on that range: TAB..CR, FS..US, space, NEL and the
    no-break space. *)
Definition isspace (c : ascii) : bool :=
  let n := nat_of_ascii c in
  (((9 <=? n) && (n <=? 13)) || ((28 <=? n) && (n <=? 32)) || (n =? 133) || (n =? 160))%nat.

Fixpoint lstrip (s : str) : str :=
  match s with
  | [] => []
  | c :: s' => if isspace c then lstrip s' else s
  end.

Definition rstrip (s : str) : str := rev (lstrip (rev s)).

(** [s.strip()] *)
Definition strip (s : str) : str := rstrip (lstrip s).

Definition startswith (s p : str) : bool := bool_decide (p `prefix_of` s).

Definition endswith (s p : str) : bool := bool_decide (p `suffix_of` s).

(** [s[n:]] *)
Definition slice_from (s : str) (n : Z) : str := slice s n (Z.of_nat (length s)).

(** [s[:n]] *)
Definition slice_to (s : str) (n : Z) : str := slice s 0 n.

(** Nothing but white space. *)
Definition blank (ws : str) : Prop := Forall (fun c => isspace c = true) ws.

Definition json_fence : str := lit "```json".

Definition fence : str := lit "```".

(** The clean-up at the end of [generate_questions]. *)
Definition generate_questions_cleanup (content : str) : str :=
  let content := strip content in
  let content := if startswith content json_fence then slice_from content 7 else content in
  let content := if endswith content fence then slice_to content (-3) else content in
  strip content.

(** The clean-up inside [generate_questions_direct]: it has one more
    branch, for a fence without the language tag. *)
Definition generate_questions_direct_cleanup (content : str) : str :=
  let content := strip content in
  let content :=
    if startswith content json_fence then slice_from content 7
    else if startswith content fence then slice_from content 3
    else content in
  let content := if endswith content fence then slice_to content (-3) else content in
  strip content.

End Text.

(** ** The other wrappers of agents.py *)

Module Gateway.
Import Py Agents Text.

Section Gateway.
Variable json : Type.
Variable json_loads : string -> result json.

(** The object [{}]: what [json.loads] makes of the text "{}" and what
    [run_exam_preparator] falls back to are the same value. *)
Variable empty_dict : json.

(** [json.loads(x)] for an [x] of any type: only text is parsed. *)
Definition json_loads_any (x : value json) : result json :=
  match x with
  | VStr s => json_loads s
  | _ => Raised (OtherException "TypeError")
  end.

Definition exam_prompt (exam_name : string) : string :=
  "Load the syllabus for " +:+ exam_name +:+ " exam with all topics and subtopics.".

Definition run_exam_preparator
    (get_exam_preparator_agent : result (string -> result (value json)))
    (exam_name : string) : result (value json) :=
  try_except
    (agent ← get_exam_preparator_agent;
     result ← agent (exam_prompt exam_name);
     try_except (j ← json_loads_any result; mret (VJson j))
                is_Exception
                (fun _ => mret result))
    is_Exception
    (fun e => mret (VJson empty_dict)).

(** [content.strip()] and what follows need a [str]. *)
Definition as_str (x : value json) : result str :=
  match x with
  | VStr s => Returned (list_ascii_of_string s)
  | _ => Raised (OtherException "AttributeError")
  end.

(** [generate_questions_direct]; [llm_content] is what the lines up to
    [content = ...] produce: the content of the model's reply, or an
    exception. *)
Definition generate_questions_direct (llm_content : result (value json))
    : result (value json) :=
  try_except
    (content ← llm_content;
     content ← as_str content;
     let content := generate_questions_direct_cleanup content in
     parsed_result ← json_loads (string_of_list_ascii content);
     mret (VJson parsed_result))
    is_Exception
    (fun e => mret VNone).

End Gateway.

End Gateway.

(** ** The quiz form and the roadmap dates (fileapp.py) *)

Module Session.
Import Py FileApp.

(** Body of the loop that draws the form: the radio group of question
    [idx] returns [choice idx] and the answer is stored under its key; a
    question without options gets no radio group. *)
Definition collect_step (choice : nat -> answer_value)
    (user_answers : gmap string answer_value) (iq : nat * question)
    : gmap string answer_value :=
  let '(idx, question) := iq in
  if truthy (question_options question)
  then <[answer_key idx := choice idx]> user_answers
  else user_answers.

Definition collect_answers (choice : nat -> answer_value) (qs : list question)
    (user_answers : gmap string answer_value) : gmap string answer_value :=
  fold_left (collect_step choice) (enumerate qs) user_answers.

(** [key not in user_answers or user_answers[key] is None] *)
Definition is_unanswered (user_answers : gmap string answer_value) (idx : nat) : bool :=
  match user_answers !! answer_key idx with
  | None => true
  | Some ANone => true
  | Some (AStr _) => false
  end.

Definition unanswered_step (user_answers : gmap string answer_value)
    (unanswered : list nat) (idx : nat) : list nat :=
  if is_unanswered user_answers idx then unanswered ++ [(idx + 1)%nat] else unanswered.

(** The list built after the submit button is pressed. *)
Definition unanswered_questions (qs : list question)
    (user_answers : gmap string answer_value) : list nat :=
  fold_left (unanswered_step user_answers) (seq 0 (length qs)) [].

(** Whether pressing submit sets [quiz_submitted]. *)
Definition submission_accepted (qs : list question)
    (user_answers : gmap string answer_value) : bool :=
  negb (truthy (unanswered_questions qs user_answers)).

(** [current_date + timedelta(days=day_info['day'] - 1)] in
    [show_enhanced_roadmap]. *)
Definition day_date (current_date : datetime) (day_info : Agents.day_entry) : datetime :=
  {| ordinal := ordinal current_date + (Agents.day day_info - 1);
     micros := micros current_date |}.

End Session.

(** ** Notions for the further properties *)

Module Further.
Import Py Agents FileApp.

(** The grade by exact arithmetic: A from 80 percent, B from 60. *)
Definition exact_grade (score total : Z) : string :=
  if 4 * total <=? 5 * score then "A"
  else if 3 * total <=? 5 * score then "B"
  else "C".

(** The entry of [wrong_topics] for a question answered wrongly. *)
Definition wrong_label (iq : nat * question) : string :=
  default ("Question " +:+ pretty (fst iq + 1)%nat) (question_topic (snd iq)).

Definition is_wrong (user_answers : gmap string answer_value) (iq : nat * question) : bool :=
  negb (is_correct user_answers (fst iq) (snd iq)).

(** Number of assignments of an entry. *)
Definition topic_count (e : day_entry) : Z :=
  match topics e with
  | Detailed l => Z.of_nat (length l)
  | Label _ => 0
  end.

(** Does [float_of_int]-based grading agree with [exact_grade] for every
    score of every quiz of [1 .. n] questions? *)
Definition grading_table_agrees (n : Z) : bool :=
  forallb (fun total =>
    forallb (fun score =>
      String.eqb
        (grade_of (PrimFloat.mul (truediv score total) (float_of_int 100)))
        (exact_grade score total))
      (seqZ 0 (total + 1)))
    (seqZ 1 n).

Definition blank_question : question :=
  {| question_text := Some "Unkeyed";
     question_options := [];
     question_answer := None;
     question_topic := None |}.

End Further.

(** ** A response that is not JSON and does not fail with JSONDecodeError *)

Module Deep.
Import Py Agents.

(** ['[' * 100000] *)
Definition deep_brackets : string :=
  string_of_list_ascii (repeat "["%char (N.to_nat 100000)).

(** [json.loads] on such a text: the nesting exhausts the recursion limit
    before the missing closing brackets are seen. *)
Definition recursion_error_loads (s : string) : result unit :=
  Raised (OtherException "RecursionError").

(** An agent whose run returns [reply]. *)
Definition echo_agent (reply : string) (prompt : string) : result (value unit) :=
  Returned (VStr reply).

End Deep.

(** ** Facts about the Python primitives *)

Section PythonFacts.
Import Py.

Lemma floordiv_nonzero (a b : Z) : b <> 0 -> floordiv a b = Returned (a / b).
Proof.
  intros Hb. unfold floordiv.
  destruct (Z.eqb_spec b 0) as [E | _]; [contradiction | reflexivity].
Qed.

Lemma fold_left_same_body {A B : Type} (f g : A -> B -> A) (l : list B) (a : A) :
  (forall acc x, f acc x = g acc x) -> fold_left f l a = fold_left g l a.
Proof.
  intros Hfg. revert a. induction l as [| x l IH]; intros a; simpl; [reflexivity |].
  rewrite Hfg. apply IH.
Qed.

Lemma fold_left_snoc_flat_map {A B : Type} (f : B -> list A) (l : list B) (init : list A) :
  fold_left (fun acc x => acc ++ f x) l init = init ++ flat_map f l.
Proof.
  revert init. induction l as [| x l IH]; intros init; simpl.
  - now rewrite app_nil_r.
  - rewrite IH. now rewrite <- app_assoc.
Qed.

Lemma flat_map_singletons {A B : Type} (f : B -> list A) (g : B -> A) (l : list B) :
  Forall (fun x => f x = [g x]) l -> flat_map f l = map g l.
Proof.
  induction 1 as [| x l Hx _ IH]; simpl; [reflexivity |].
  rewrite Hx, IH. reflexivity.
Qed.

Lemma flat_map_empties {A B : Type} (f : B -> list A) (l : list B) :
  Forall (fun x => f x = []) l -> flat_map f l = [].
Proof.
  induction 1 as [| x l Hx _ IH]; simpl; [reflexivity |].
  rewrite Hx, IH. reflexivity.
Qed.

(** A loop over [range(S)] whose body appends one element for the indices
    below [k] and nothing from [k] on. *)
Lemma flat_map_range_cut {A : Type} (f : Z -> list A) (g : Z -> A) (S k : Z) :
  0 <= k <= S ->
  (forall i, 0 <= i < k -> f i = [g i]) ->
  (forall i, k <= i < S -> f i = []) ->
  flat_map f (range S) = map g (range k).
Proof.
  intros Hk Hlow Hhigh. unfold range.
  replace S with (k + (S - k)) by lia.
  rewrite seqZ_app by lia. rewrite flat_map_app.
  rewrite (flat_map_singletons f g).
  - rewrite flat_map_empties; [now rewrite app_nil_r |].
    apply Forall_seqZ. intros i Hi. apply Hhigh. lia.
  - apply Forall_seqZ. intros i Hi. apply Hlow. lia.
Qed.

Lemma truthy_length {A : Type} (l : list A) :
  truthy l = true <-> (0 < length l)%nat.
Proof. destruct l; simpl; split; intros; try lia; try discriminate; reflexivity. Qed.

Lemma slice_length {A : Type} (l : list A) (a b : Z) :
  0 <= a -> 0 <= b ->
  Z.of_nat (length (slice l a b)) =
  Z.max 0 (Z.min b (Z.of_nat (length l)) - Z.min a (Z.of_nat (length l))).
Proof.
  intros Ha Hb. unfold slice, clamp_index.
  destruct (Z.ltb_spec a 0); [lia |].
  destruct (Z.ltb_spec b 0); [lia |].
  rewrite length_take, length_drop. lia.
Qed.

End PythonFacts.

(** ** The shape of every plan *)

Section PartitionerFacts.
Import Py Agents Plan.

Lemma days_left_pos (today target : datetime) : 1 <= days_left today target.
Proof. unfold days_left. lia. Qed.

Lemma revision_days_bounds (D : Z) :
  1 <= D -> 1 <= revision_days_of D <= D.
Proof.
  intros HD. unfold revision_days_of. split; [lia |].
  assert (D / 7 <= D) by (apply Z.div_le_upper_bound; lia). lia.
Qed.

Lemma study_days_nonneg (D : Z) : 1 <= D -> 0 <= study_days_of D.
Proof.
  intros HD. unfold study_days_of. pose proof (revision_days_bounds D HD). lia.
Qed.

(** The loop over [range(study_days)] is skipped exactly when one day is
    left. *)
Lemma study_days_zero_iff (D : Z) : 1 <= D -> (study_days_of D <= 0 <-> D = 1).
Proof.
  intros HD. unfold study_days_of, revision_days_of.
  assert (H7 : 7 * (D / 7) <= D) by (apply Z.mul_div_le; lia).
  split; intros H; [| subst D; simpl; lia]. lia.
Qed.

Lemma topics_per_day_pos (T S : Z) : 0 < S -> 1 <= topics_per_day_of T S.
Proof.
  intros HS. unfold topics_per_day_of.
  destruct (Z.ltb_spec 0 S); lia.
Qed.

Lemma study_step_window (tl : list (string * string)) (T tpd : Z)
    (plan : list day_entry) (i : Z) :
  study_step tl T tpd plan i =
  plan ++ (if truthy (window tl T tpd i) then [window_entry tl T tpd i] else []).
Proof.
  unfold study_step, window_entry, window.
  destruct (truthy _); [reflexivity | now rewrite app_nil_r].
Qed.

Lemma window_length (tl : list (string * string)) (tpd i : Z) :
  0 <= tpd -> 0 <= i ->
  Z.of_nat (length (window tl (Z.of_nat (length tl)) tpd i)) =
  Z.max 0 (Z.min ((i + 1) * tpd) (Z.of_nat (length tl)) - Z.min (i * tpd) (Z.of_nat (length tl))).
Proof.
  intros Ht Hi. unfold window. rewrite slice_length by nia.
  f_equal. lia.
Qed.

Lemma window_truthy (tl : list (string * string)) (tpd i : Z) :
  1 <= tpd -> 0 <= i ->
  (truthy (window tl (Z.of_nat (length tl)) tpd i) = true <-> i * tpd < Z.of_nat (length tl)).
Proof.
  intros Ht Hi. rewrite truthy_length.
  pose proof (window_length tl tpd i ltac:(lia) Hi) as HL.
  split; intros H; nia.
Qed.

Lemma window_index_bound (T tpd i : Z) :
  1 <= tpd -> (i * tpd < T <-> i < (T + tpd - 1) / tpd).
Proof.
  intros Ht. split; intros H.
  - assert (i + 1 <= (T + tpd - 1) / tpd); [| lia].
    apply Z.div_le_lower_bound; nia.
  - destruct (Z.lt_ge_cases (i * tpd) T) as [| Hge]; [assumption | exfalso].
    assert ((T + tpd - 1) / tpd < i + 1); [| lia].
    apply Z.div_lt_upper_bound; nia.
Qed.

Lemma windows_used_bounds (T tpd S : Z) :
  0 <= T -> 1 <= tpd -> 0 <= S -> 0 <= windows_used T tpd S <= S.
Proof.
  intros HT Ht HS. unfold windows_used.
  destruct (Z.ltb_spec 0 S); [| lia].
  assert (0 <= (T + tpd - 1) / tpd) by (apply Z.div_pos; lia). lia.
Qed.

(** The study loop emits the windows [0 .. k-1], [k = windows_used]. *)
Lemma study_loop_entries (tl : list (string * string)) (tpd S : Z) :
  1 <= tpd -> 0 <= S ->
  let T := Z.of_nat (length tl) in
  fold_left (study_step tl T tpd) (range S) [] =
  map (window_entry tl T tpd) (range (windows_used T tpd S)).
Proof.
  intros Ht HS. cbv zeta.
  assert (Htruthy : forall i, 0 <= i ->
            (truthy (window tl (Z.of_nat (length tl)) tpd i) = true <->
             i * tpd < Z.of_nat (length tl)))
    by (intros i Hi; now apply window_truthy).
  remember (Z.of_nat (length tl)) as T eqn:ET.
  rewrite (fold_left_same_body _ (fun acc i => acc ++
             (if truthy (window tl T tpd i) then [window_entry tl T tpd i] else [])))
    by (intros; apply study_step_window).
  rewrite fold_left_snoc_flat_map. simpl.
  pose proof (windows_used_bounds T tpd S ltac:(lia) Ht HS) as Hk.
  assert (Hcut : forall i, 0 <= i < S -> (i < windows_used T tpd S <-> i * tpd < T)).
  { intros i Hi. rewrite (window_index_bound T tpd i Ht). unfold windows_used.
    destruct (Z.ltb_spec 0 S); lia. }
  apply flat_map_range_cut; [exact Hk | |].
  - intros i Hi.
    assert (Hlt : i * tpd < T) by (apply Hcut; lia).
    apply Htruthy in Hlt; [| lia]. now rewrite Hlt.
  - intros i Hi.
    destruct (truthy (window tl T tpd i)) eqn:E; [exfalso | reflexivity].
    apply Htruthy in E; [| lia]. apply Hcut in E; lia.
Qed.

Lemma revision_loop_entries (S R : Z) (plan : list day_entry) :
  fold_left (revision_step S) (range R) plan = plan ++ map (revision_entry S) (range R).
Proof.
  rewrite (fold_left_same_body _ (fun acc j => acc ++ [revision_entry S j]))
    by reflexivity.
  rewrite fold_left_snoc_flat_map.
  rewrite (flat_map_singletons _ (revision_entry S)); [reflexivity |].
  apply Forall_forall. intros j _. reflexivity.
Qed.

(** Every call returns, and the plan is the emitted windows followed by the
    revision days. *)
Lemma create_timetable_direct_shape (today : datetime) (syl : syllabus) (target : datetime) :
  let D := days_left today target in
  let R := revision_days_of D in
  let S := study_days_of D in
  let tl := topic_list_of syl in
  let T := Z.of_nat (length tl) in
  let tpd := topics_per_day_of T S in
  create_timetable_direct today syl target =
  Returned (map (window_entry tl T tpd) (range (windows_used T tpd S)) ++
            map (revision_entry S) (range R)).
Proof.
  intros D R S tl T tpd.
  pose proof (days_left_pos today target) as HD. fold D in HD.
  pose proof (study_days_nonneg D HD) as HS. fold S in HS.
  unfold create_timetable_direct.
  change (Z.max 1 (timedelta_days target today)) with D.
  rewrite floordiv_nonzero by lia.
  cbn [mbind mret result_bind result_ret bind].
  change (Z.max 1 (D / 7)) with R. change (D - R) with S.
  change (topic_list_of syl) with tl. change (Z.of_nat (length tl)) with T.
  assert (Etpd : tpd = if 0 <? S then Z.max 1 (T / S) else T) by reflexivity.
  assert (Hloop : 0 < S -> fold_left (study_step tl T tpd) (range S) [] =
                           map (window_entry tl T tpd) (range (windows_used T tpd S))).
  { intros Hpos. apply study_loop_entries; [| exact HS].
    apply topics_per_day_pos. exact Hpos. }
  clearbody tpd T S R.
  destruct (Z.ltb_spec 0 S) as [Hpos | Hzero].
  - rewrite floordiv_nonzero by lia.
    cbn [mbind mret result_bind result_ret bind].
    rewrite <- Etpd, revision_loop_entries, Hloop by exact Hpos. reflexivity.
  - cbn [mbind mret result_bind result_ret bind].
    rewrite <- Etpd, revision_loop_entries.
    assert (ES : S = 0) by lia. subst S.
    unfold windows_used. reflexivity.
Qed.

End PartitionerFacts.

(** ** Day indices and entry kinds of a plan *)

Section PlanStructure.
Import Py Agents Plan.

Lemma filter_map_all {A B : Type} (p : B -> bool) (g : A -> B) (l : list A) :
  (forall x, p (g x) = true) -> List.filter p (map g l) = map g l.
Proof.
  intros Hp. induction l as [| x l IH]; simpl; [reflexivity |].
  rewrite Hp, IH. reflexivity.
Qed.

Lemma filter_map_none {A B : Type} (p : B -> bool) (g : A -> B) (l : list A) :
  (forall x, p (g x) = false) -> List.filter p (map g l) = [].
Proof.
  intros Hp. induction l as [| x l IH]; simpl; [reflexivity |].
  rewrite Hp, IH. reflexivity.
Qed.

Lemma study_entries_of_shape tl T tpd S (l1 l2 : list Z) :
  List.filter is_study (map (window_entry tl T tpd) l1 ++ map (revision_entry S) l2) =
  map (window_entry tl T tpd) l1.
Proof.
  rewrite List.filter_app, filter_map_all, filter_map_none by reflexivity.
  apply app_nil_r.
Qed.

Lemma revision_entries_of_shape tl T tpd S (l1 l2 : list Z) :
  List.filter is_revision (map (window_entry tl T tpd) l1 ++ map (revision_entry S) l2) =
  map (revision_entry S) l2.
Proof.
  rewrite List.filter_app, filter_map_none, filter_map_all by reflexivity.
  reflexivity.
Qed.

Lemma map_shift_seqZ (f : Z -> Z) (c a n : Z) :
  (forall i, f i = i + c) -> map f (seqZ a n) = seqZ (a + c) n.
Proof.
  intros Hf. destruct (Z.le_gt_cases n 0) as [Hn | Hn].
  - now rewrite !seqZ_nil by lia.
  - rewrite <- (Z2Nat.id n) by lia. generalize (Z.to_nat n) as m. clear n Hn.
    intros m. revert a. induction m as [| m IH]; intros a.
    + now rewrite !seqZ_nil by lia.
    + rewrite !(seqZ_cons _ (Z.of_nat (S m))) by lia. simpl.
      replace (Z.pred (Z.of_nat (S m))) with (Z.of_nat m) by lia.
      rewrite Hf, IH. f_equal. f_equal. lia.
Qed.

Lemma study_day_indices tl T tpd (k : Z) :
  map day (map (window_entry tl T tpd) (range k)) = seqZ 1 k.
Proof.
  rewrite map_map. unfold range.
  rewrite (map_shift_seqZ _ 1 0 k); [reflexivity |]. intros i. reflexivity.
Qed.

Lemma revision_day_indices (S R : Z) :
  map day (map (revision_entry S) (range R)) = seqZ (S + 1) R.
Proof.
  rewrite map_map. unfold range.
  rewrite (map_shift_seqZ _ (S + 1) 0 R); [reflexivity |]. intros j. simpl. lia.
Qed.

Lemma seqZ_increasing (n : nat) (a : Z) : StronglySorted Z.lt (seqZ a (Z.of_nat n)).
Proof.
  revert a. induction n as [| n IH]; intros a.
  - rewrite seqZ_nil by lia. constructor.
  - rewrite seqZ_cons by lia. constructor.
    + replace (Z.pred (Z.of_nat (S n))) with (Z.of_nat n) by lia. apply IH.
    + apply Forall_seqZ. intros i Hi. lia.
Qed.

Lemma seqZ_two_runs_increasing (a k b r : Z) :
  0 <= k -> 0 <= r -> a + k <= b -> StronglySorted Z.lt (seqZ a k ++ seqZ b r).
Proof.
  intros Hk Hr Hab. apply StronglySorted_app_2.
  - intros x y Hx Hy. apply elem_of_seqZ in Hx, Hy. lia.
  - rewrite <- (Z2Nat.id k Hk). apply seqZ_increasing.
  - rewrite <- (Z2Nat.id r Hr). apply seqZ_increasing.
Qed.

End PlanStructure.

(** ** Properties of the timetable partitioner *)

Section PartitionerProperties.
Import Py Agents Plan.

Lemma emitted_windows_nonempty (tl : list (string * string)) (S i : Z) :
  let T := Z.of_nat (length tl) in
  let tpd := topics_per_day_of T S in
  0 <= i < windows_used T tpd S -> window tl T tpd i <> [].
Proof.
  intros T tpd Hi. unfold windows_used in Hi.
  destruct (Z.ltb_spec 0 S) as [Hpos | Hzero]; [| lia].
  pose proof (topics_per_day_pos T S Hpos) as Ht. fold tpd in Ht.
  assert (Hlt : i * tpd < T) by (apply window_index_bound; lia).
  apply (window_truthy tl tpd i Ht) in Hlt; [| lia].
  fold T in Hlt. intros E. rewrite E in Hlt. discriminate.
Qed.

Lemma windows_emitted_bounds (T S : Z) :
  0 <= T -> 0 <= S ->
  0 <= windows_used T (topics_per_day_of T S) S <= S.
Proof.
  intros HT HS. destruct (Z.le_gt_cases S 0) as [Hzero | Hpos].
  - unfold windows_used. destruct (Z.ltb_spec 0 S); lia.
  - apply windows_used_bounds; [lia | | exact HS].
    apply topics_per_day_pos. lia.
Qed.

Lemma detailed_topic_hours (p : string * string) : hours_rule (detailed_topic p).
Proof.
  destruct p as [subject topic]. unfold hours_rule, detailed_topic, equal_ignoring_case.
  cbn [Agents.subject suggested_hours].
  replace (lower "essay") with "essay" by reflexivity.
  destruct (String.eqb (lower subject) "essay"); reflexivity.
Qed.

(** C3. The partitioner returns a plan on every syllabus, every clock
    reading and every end date, also a past one: the day count is floored
    at 1, and neither division meets a zero divisor. *)
Theorem create_timetable_direct_never_raises
    (today : datetime) (syl : syllabus) (target : datetime) :
  1 <= days_left today target /\
  (exists plan, create_timetable_direct today syl target = Returned plan) /\
  (forall e, create_timetable_direct today syl target <> Raised e).
Proof.
  split; [apply days_left_pos |].
  rewrite create_timetable_direct_shape. split.
  - eexists. reflexivity.
  - intros e. discriminate.
Qed.

(** C6. The plan holds exactly [max(1, D // 7)] revision entries, so at
    least one, and each carries the label "Revise all covered topics". *)
Theorem revision_days_appended
    (today : datetime) (syl : syllabus) (target : datetime) :
  exists plan,
    create_timetable_direct today syl target = Returned plan /\
    revision_count plan = Z.max 1 (days_left today target / 7) /\
    1 <= revision_count plan /\
    Forall (fun e => type e = revision ->
                     topics e = Label "Revise all covered topics") plan.
Proof.
  eexists. split; [apply create_timetable_direct_shape |].
  cbv zeta. unfold revision_count. rewrite revision_entries_of_shape.
  rewrite length_map. unfold range. rewrite length_seqZ.
  unfold revision_days_of. repeat split; try lia.
  apply Forall_app. split; apply Forall_map, Forall_forall; intros i _.
  - simpl. discriminate.
  - reflexivity.
Qed.

(** C5. In every plan a topic assignment whose subject is "essay" up to
    letter case has [suggested_hours = 1], and every other one has 2. *)
Theorem suggested_hours_by_subject
    (today : datetime) (syl : syllabus) (target : datetime) :
  exists plan,
    create_timetable_direct today syl target = Returned plan /\
    Forall hours_rule_entry plan.
Proof.
  eexists. split; [apply create_timetable_direct_shape |].
  cbv zeta. apply Forall_app. split; apply Forall_map, Forall_forall; intros i _.
  - unfold hours_rule_entry. simpl. apply Forall_map, Forall_forall.
    intros p _. apply detailed_topic_hours.
  - exact I.
Qed.

(** C10. Every study entry has a non-empty list of assignments, every
    revision entry has the fixed label, the study entries come before the
    revision entries, and the day indices increase strictly along the plan. *)
Theorem plan_invariant
    (today : datetime) (syl : syllabus) (target : datetime) :
  exists plan,
    create_timetable_direct today syl target = Returned plan /\
    Forall well_formed_entry plan /\
    (exists studies revisions,
        plan = studies ++ revisions /\
        Forall (fun e => type e = study) studies /\
        Forall (fun e => type e = revision) revisions) /\
    StronglySorted Z.lt (map day plan).
Proof.
  eexists. split; [apply create_timetable_direct_shape |].
  cbv zeta.
  pose proof (days_left_pos today target) as HD.
  pose proof (study_days_nonneg _ HD) as HS.
  pose proof (revision_days_bounds _ HD) as HR.
  set (D := days_left today target) in *.
  set (S := study_days_of D) in *. set (R := revision_days_of D) in *.
  set (tl := topic_list_of syl). set (T := Z.of_nat (length tl)).
  set (tpd := topics_per_day_of T S). set (k := windows_used T tpd S).
  assert (Hk : 0 <= k <= S).
  { apply windows_emitted_bounds; [unfold T; lia | exact HS]. }
  split; [| split].
  - apply Forall_app. split; apply Forall_map.
    + apply Forall_seqZ. intros i Hi. unfold well_formed_entry. simpl.
      intros E. apply map_eq_nil in E. revert E.
      apply emitted_windows_nonempty. fold T tpd k. lia.
    + apply Forall_forall. intros j _. reflexivity.
  - exists (map (window_entry tl T tpd) (range k)), (map (revision_entry S) (range R)).
    split; [reflexivity |].
    split; apply Forall_map, Forall_forall; intros i _; reflexivity.
  - rewrite map_app, study_day_indices, revision_day_indices.
    apply seqZ_two_runs_increasing; lia.
Qed.

(** When a single day is left the study loop does not run: the plan is one
    revision day, whatever the syllabus. *)
Lemma one_day_left_plan (today : datetime) (syl : syllabus) (target : datetime) :
  days_left today target = 1 ->
  create_timetable_direct today syl target = Returned [revision_entry 0 0].
Proof.
  intros HD. rewrite create_timetable_direct_shape. rewrite HD.
  replace (revision_days_of 1) with 1 by reflexivity.
  replace (study_days_of 1) with 0 by reflexivity.
  unfold windows_used. reflexivity.
Qed.

Lemma scheduled_in_window_entry tl T tpd i :
  scheduled_in (window_entry tl T tpd i) = window tl T tpd i.
Proof.
  unfold scheduled_in, window_entry. cbn [topics]. rewrite map_map.
  rewrite <- (map_id (window tl T tpd i)) at 2.
  apply map_ext. intros [subject topic]. reflexivity.
Qed.

(** The windows [0 .. k-1] laid end to end are a prefix of the topic list. *)
Lemma windows_concat_prefix (tl : list (string * string)) (tpd : Z) (k : nat) :
  0 <= tpd ->
  let T := Z.of_nat (length tl) in
  flat_map (window tl T tpd) (range (Z.of_nat k)) =
  take (Z.to_nat (Z.min (Z.of_nat k * tpd) T)) tl.
Proof.
  intros Ht. cbv zeta. induction k as [| k IH].
  - replace (Z.to_nat (Z.min (Z.of_nat 0 * tpd) (Z.of_nat (length tl)))) with 0%nat by lia.
    reflexivity.
  - unfold range in *. rewrite seqZ_S, flat_map_app, IH. simpl flat_map.
    rewrite app_nil_r. unfold window, slice, clamp_index.
    destruct (Z.ltb_spec ((0 + Z.of_nat k) * tpd) 0); [nia |].
    destruct (Z.ltb_spec (Z.min ((0 + Z.of_nat k + 1) * tpd) (Z.of_nat (length tl))) 0); [nia |].
    rewrite take_take_drop. f_equal. nia.
Qed.

(** What the study days cover: the first [windows_used * topics_per_day]
    topics, in order and once each; the topics after them are in no entry. *)
Lemma scheduled_topics_prefix (today : datetime) (syl : syllabus) (target : datetime) :
  let S := study_days_of (days_left today target) in
  let tl := topic_list_of syl in
  let T := Z.of_nat (length tl) in
  let tpd := topics_per_day_of T S in
  exists plan,
    create_timetable_direct today syl target = Returned plan /\
    scheduled plan = take (Z.to_nat (Z.min (windows_used T tpd S * tpd) T)) tl.
Proof.
  intros S tl T tpd. eexists. split; [apply create_timetable_direct_shape |].
  fold S tl T tpd. unfold scheduled. rewrite study_entries_of_shape.
  rewrite flat_map_concat_map, map_map.
  rewrite (map_ext _ _ (scheduled_in_window_entry tl T tpd)).
  rewrite <- flat_map_concat_map.
  pose proof (study_days_nonneg _ (days_left_pos today target)) as HS. fold S in HS.
  pose proof (windows_emitted_bounds T S ltac:(unfold T; lia) HS) as Hk. fold tpd in Hk.
  rewrite <- (Z2Nat.id (windows_used T tpd S)) by lia.
  apply windows_concat_prefix.
  unfold tpd, topics_per_day_of. destruct (Z.ltb_spec 0 S); unfold T; lia.
Qed.

(** C1, at a failing input. Five topics and four days left: three study
    days of one topic each are planned and the last two topics are in no
    entry. *)
Theorem topics_dropped_by_floor_division :
  exists plan,
    create_timetable_direct Samples.this_morning Samples.five_topics (Samples.in_days 5)
      = Returned plan /\
    days_left Samples.this_morning (Samples.in_days 5) = 4 /\
    topic_list_of Samples.five_topics =
      [("Math", "Algebra"); ("Math", "Geometry"); ("Math", "Calculus");
       ("Math", "Trigonometry"); ("Math", "Statistics")] /\
    scheduled plan = [("Math", "Algebra"); ("Math", "Geometry"); ("Math", "Calculus")].
Proof.
  eexists. split; [vm_compute; reflexivity |].
  split; [reflexivity |]. split; reflexivity.
Qed.

(** C4, at a failing input. The exam is today: [study_days = 0], and the
    plan is the revision day alone; no study day holds the three topics. *)
Theorem exam_today_schedules_no_topic :
  exists plan,
    create_timetable_direct Samples.this_morning Samples.two_subjects (Samples.in_days 0)
      = Returned plan /\
    study_days_of (days_left Samples.this_morning (Samples.in_days 0)) = 0 /\
    length (topic_list_of Samples.two_subjects) = 3%nat /\
    plan = [ {| day := 1; type := revision; topics := Label "Revise all covered topics" |} ] /\
    scheduled plan = [].
Proof.
  eexists. split; [apply one_day_left_plan; reflexivity |].
  repeat split; reflexivity.
Qed.

(** C2, refuted as stated. With an empty syllabus and seven days left the
    only entry is the revision day, and its index is 7, not 1. *)
Lemma empty_syllabus_revision_day_index :
  exists plan,
    create_timetable_direct Samples.this_morning [] (Samples.in_days 8) = Returned plan /\
    days_left Samples.this_morning (Samples.in_days 8) = 7 /\
    map day plan = [7] /\
    ~ indices_contiguous plan.
Proof.
  eexists. split; [vm_compute; reflexivity |].
  split; [reflexivity |]. split; [reflexivity |].
  unfold indices_contiguous. vm_compute. discriminate.
Qed.

(** C2, amended. The [k] emitted study days carry the indices [1 .. k]; the
    revision days carry [study_days + 1 .. study_days + revision_days], that
    is, they follow the last study day allotted, emitted or not. No index
    repeats, and the indices are the contiguous [1 .. k + revision_days]
    exactly when no window was skipped, [k = study_days]. *)
Theorem day_indices_of_plan
    (today : datetime) (syl : syllabus) (target : datetime) :
  let D := days_left today target in
  let R := Z.max 1 (D / 7) in
  let S := D - R in
  exists plan,
    create_timetable_direct today syl target = Returned plan /\
    revision_count plan = R /\
    0 <= study_count plan <= S /\
    map day plan = seqZ 1 (study_count plan) ++ seqZ (S + 1) R /\
    NoDup (map day plan) /\
    (indices_contiguous plan <-> study_count plan = S).
Proof.
  intros D R S. eexists. split; [apply create_timetable_direct_shape |].
  fold D. change (revision_days_of D) with R. change (study_days_of D) with S.
  pose proof (days_left_pos today target) as HD. fold D in HD.
  pose proof (study_days_nonneg D HD) as HS. change (study_days_of D) with S in HS.
  pose proof (revision_days_bounds D HD) as HR. change (revision_days_of D) with R in HR.
  set (tl := topic_list_of syl). set (T := Z.of_nat (length tl)).
  set (tpd := topics_per_day_of T S). set (k := windows_used T tpd S).
  assert (Hk : 0 <= k <= S)
    by (apply windows_emitted_bounds; [unfold T; lia | exact HS]).
  clearbody k tpd T tl R S.
  unfold indices_contiguous, study_count, revision_count.
  rewrite study_entries_of_shape, revision_entries_of_shape, !length_map.
  rewrite map_app, study_day_indices, revision_day_indices.
  unfold range. rewrite !length_seqZ, !Z2Nat.id by lia.
  split; [reflexivity |]. split; [exact Hk |]. split; [reflexivity |]. split.
  - apply NoDup_app. split; [apply NoDup_seqZ |]. split; [| apply NoDup_seqZ].
    intros x Hx Hy. apply elem_of_seqZ in Hx, Hy. lia.
  - rewrite (seqZ_app 1 k R) by lia. split.
    + intros E. apply app_inv_head in E.
      rewrite (seqZ_cons (S + 1) R), (seqZ_cons (1 + k) R) in E by lia.
      injection E as E _. lia.
    + intros E. rewrite E. f_equal. f_equal. lia.
Qed.

(** C9. Two calls that read the same clock value and are given the same
    syllabus and the same end date return the same plan. *)
Theorem same_inputs_same_plan
    (today1 today2 : datetime) (syl1 syl2 : syllabus) (target1 target2 : datetime) :
  today1 = today2 -> syl1 = syl2 -> target1 = target2 ->
  exists plan,
    create_timetable_direct today1 syl1 target1 = Returned plan /\
    create_timetable_direct today2 syl2 target2 = Returned plan.
Proof.
  intros Htoday Hsyl Htarget.
  pose proof (create_timetable_direct_shape today1 syl1 target1) as Hplan.
  cbv zeta in Hplan. eexists. split; [exact Hplan |].
  rewrite <- Htoday, <- Hsyl, <- Htarget. exact Hplan.
Qed.

Lemma same_inputs_same_plan_witness :
  exists plan,
    create_timetable_direct Samples.this_morning Samples.two_subjects (Samples.in_days 10)
      = Returned plan /\
    create_timetable_direct Samples.this_morning Samples.two_subjects (Samples.in_days 10)
      = Returned plan.
Proof.
  apply (same_inputs_same_plan
           Samples.this_morning Samples.this_morning
           Samples.two_subjects Samples.two_subjects
           (Samples.in_days 10) (Samples.in_days 10));
    reflexivity.
Defined.

End PartitionerProperties.

(** ** Properties of the gateway wrappers *)

Section WrapperProperties.
Import Py Agents.
Variable json : Type.
Variable json_loads : string -> result json.
Variable json_dumps : syllabus -> string.

(** Whatever the agent and the codec do, the planner wrapper returns. *)
Lemma run_timetable_planner_returns
    (get_agent : result (string -> result (value json)))
    (syl : syllabus) (end_date : string) :
  exists v, run_timetable_planner json json_loads json_dumps get_agent syl end_date
            = Returned v.
Proof.
  unfold run_timetable_planner, try_except, is_Exception.
  destruct get_agent as [agent | e]; cbn; [| eexists; reflexivity].
  destruct (agent _) as [[s | j | |] | e]; cbn; try (eexists; reflexivity).
  destruct (json_loads s) as [j | e]; cbn; [eexists; reflexivity |].
  destruct (is_JSONDecodeError e); eexists; reflexivity.
Qed.

(** Whatever the tool and the codec do, the quiz wrapper returns. *)
Lemma run_question_generation_agent_returns
    (generate_questions : string -> Z -> result (value json))
    (exam_name : string) (n : Z) :
  exists v, run_question_generation_agent json json_loads generate_questions exam_name n
            = Returned v.
Proof.
  unfold run_question_generation_agent, try_except, is_Exception.
  destruct (generate_questions exam_name n) as [[s | j | |] | e]; cbn;
    try (eexists; reflexivity).
  destruct (json_loads s) as [j | e]; cbn; [eexists; reflexivity |].
  destruct (is_JSONDecodeError e); eexists; reflexivity.
Qed.

(** C8, amended. When [json.loads] raises on the response text, neither
    wrapper raises and [run_question_generation_agent] returns [None];
    [run_timetable_planner] returns the text unchanged when the exception
    is a [JSONDecodeError], and [[]] when it is any other exception. *)
Theorem parse_failure_recovered_locally
    (get_agent : result (string -> result (value json)))
    (agent : string -> result (value json))
    (generate_questions : string -> Z -> result (value json))
    (syl : syllabus) (end_date exam_name : string) (n : Z) (s : string) (e : exn) :
  json_loads s = Raised e ->
  get_agent = Returned agent ->
  agent (timetable_prompt (json_dumps syl) end_date) = Returned (VStr s) ->
  generate_questions exam_name n = Returned (VStr s) ->
  (e = JSONDecodeError ->
   run_timetable_planner json json_loads json_dumps get_agent syl end_date
     = Returned (VStr s)) /\
  (e <> JSONDecodeError ->
   run_timetable_planner json json_loads json_dumps get_agent syl end_date
     = Returned VEmptyList) /\
  (exists v, run_timetable_planner json json_loads json_dumps get_agent syl end_date
             = Returned v) /\
  run_question_generation_agent json json_loads generate_questions exam_name n
    = Returned VNone.
Proof.
  intros Hparse Hget Hrun Htool.
  assert (Hplanner :
    run_timetable_planner json json_loads json_dumps get_agent syl end_date
    = Returned (if is_JSONDecodeError e then VStr s else VEmptyList)).
  { unfold run_timetable_planner. rewrite Hget. cbn. rewrite Hrun. cbn.
    rewrite Hparse. cbn. destruct (is_JSONDecodeError e); reflexivity. }
  repeat split.
  - intros ->. exact Hplanner.
  - intros Hother. rewrite Hplanner.
    destruct e; [reflexivity | contradiction | reflexivity].
  - eexists. exact Hplanner.
  - unfold run_question_generation_agent. rewrite Htool. cbn.
    rewrite Hparse. cbn. destruct (is_JSONDecodeError e); reflexivity.
Qed.

End WrapperProperties.

Lemma parse_failure_recovered_locally_witness :
  (Py.JSONDecodeError = Py.JSONDecodeError ->
   Agents.run_timetable_planner unit Quiz.never_parses (fun _ => "{}")
     (Py.Returned Quiz.plain_text_agent) Samples.two_subjects "2030-01-01"
     = Py.Returned (Agents.VStr "Day 1: Algebra")) /\
  (Py.JSONDecodeError <> Py.JSONDecodeError ->
   Agents.run_timetable_planner unit Quiz.never_parses (fun _ => "{}")
     (Py.Returned Quiz.plain_text_agent) Samples.two_subjects "2030-01-01"
     = Py.Returned Agents.VEmptyList) /\
  (exists v,
     Agents.run_timetable_planner unit Quiz.never_parses (fun _ => "{}")
       (Py.Returned Quiz.plain_text_agent) Samples.two_subjects "2030-01-01"
     = Py.Returned v) /\
  Agents.run_question_generation_agent unit Quiz.never_parses Quiz.plain_text_tool "JEE" 5
    = Py.Returned Agents.VNone.
Proof.
  apply (parse_failure_recovered_locally unit Quiz.never_parses (fun _ => "{}")
           (Py.Returned Quiz.plain_text_agent) Quiz.plain_text_agent Quiz.plain_text_tool
           Samples.two_subjects "2030-01-01" "JEE" 5 "Day 1: Algebra" Py.JSONDecodeError);
    reflexivity.
Defined.

(** C8, refuted as stated. A text of 100000 opening brackets is not valid
    JSON, yet [json.loads] raises [RecursionError] on it, not
    [JSONDecodeError]: the handler next to the parse does not catch it and
    [run_timetable_planner] returns [[]], not the text. *)
Lemma deeply_nested_text_is_not_returned :
  Deep.recursion_error_loads Deep.deep_brackets
    = Py.Raised (Py.OtherException "RecursionError") /\
  Agents.run_timetable_planner unit Deep.recursion_error_loads (fun _ => "{}")
    (Py.Returned (Deep.echo_agent Deep.deep_brackets)) Samples.two_subjects "2030-01-01"
    = Py.Returned Agents.VEmptyList /\
  Agents.run_timetable_planner unit Deep.recursion_error_loads (fun _ => "{}")
    (Py.Returned (Deep.echo_agent Deep.deep_brackets)) Samples.two_subjects "2030-01-01"
    <> Py.Returned (Agents.VStr Deep.deep_brackets).
Proof.
  assert (Hrun :
    Agents.run_timetable_planner unit Deep.recursion_error_loads (fun _ => "{}")
      (Py.Returned (Deep.echo_agent Deep.deep_brackets)) Samples.two_subjects "2030-01-01"
    = Py.Returned Agents.VEmptyList) by reflexivity.
  split; [reflexivity |]. split; [exact Hrun |].
  rewrite Hrun. discriminate.
Qed.

(** ** Properties of the quiz scoring *)

Section QuizProperties.
Import Py FileApp Quiz.

(** The loop adds one to the score for each matching question. *)
Lemma score_loop_counts (ua : gmap string answer_value) (l : list (nat * question))
    (sc : Z) (w : list string) :
  fst (fold_left (score_step ua) l (sc, w)) =
  sc + Z.of_nat (length (List.filter (fun iq => is_correct ua (fst iq) (snd iq)) l)).
Proof.
  revert sc w. induction l as [| [idx q] l IH]; intros sc w; simpl.
  - lia.
  - destruct (is_correct ua idx q); simpl; rewrite IH; simpl; lia.
Qed.

(** C7. Five questions, three of them answered as the answer field says:
    the percentage is 60.0 and the grade is "B". *)
Theorem three_of_five_scores_grade_B
    (qs : list question) (ua : gmap string answer_value) :
  length qs = 5%nat ->
  matched_count ua qs = 3%nat ->
  exists r,
    display_enhanced_quiz_results {| questions := Some qs |} ua = Some r /\
    score r = 3 /\
    total_questions r = 5 /\
    percentage r = 60%float /\
    grade r = "B".
Proof.
  intros Hlen Hmatch. unfold display_enhanced_quiz_results. cbn [questions default].
  assert (Hsome : truthy qs = true) by (destruct qs; [discriminate | reflexivity]).
  unfold id. rewrite Hsome, Hlen. cbn [negb].
  pose proof (score_loop_counts ua (enumerate qs) 0 []) as Hscore.
  unfold matched_count in Hmatch. rewrite Hmatch in Hscore.
  destruct (fold_left (score_step ua) (enumerate qs) (0, [])) as [sc w].
  cbn [fst] in Hscore. subst sc.
  eexists. split; [reflexivity |]. cbn [score total_questions percentage grade].
  repeat split; vm_compute; reflexivity.
Qed.

Lemma three_of_five_scores_grade_B_witness :
  length sample_questions = 5%nat /\
  matched_count sample_answers sample_questions = 3%nat /\
  exists r,
    display_enhanced_quiz_results {| questions := Some sample_questions |} sample_answers
      = Some r /\
    score r = 3 /\
    total_questions r = 5 /\
    percentage r = 60%float /\
    grade r = "B".
Proof.
  split; [reflexivity |]. split; [vm_compute; reflexivity |].
  apply (three_of_five_scores_grade_B sample_questions sample_answers);
    [reflexivity | vm_compute; reflexivity].
Defined.

End QuizProperties.

(** ** Further properties of the quiz scoring *)

Section QuizScoring.
Import Py FileApp Quiz Further.

Lemma filter_keeps_all {A : Type} (p : A -> bool) (l : list A) :
  Forall (fun x => p x = true) l -> List.filter p l = l.
Proof.
  induction 1 as [| x l Hx _ IH]; simpl; [reflexivity |]. now rewrite Hx, IH.
Qed.

Lemma filter_keeps_none {A : Type} (p : A -> bool) (l : list A) :
  Forall (fun x => p x = false) l -> List.filter p l = [].
Proof.
  induction 1 as [| x l Hx _ IH]; simpl; [reflexivity |]. now rewrite Hx, IH.
Qed.

Lemma filter_split_length {A : Type} (p : A -> bool) (l : list A) :
  (length (List.filter p l) + length (List.filter (fun x => negb (p x)) l) = length l)%nat.
Proof.
  induction l as [| x l IH]; simpl; [reflexivity |].
  destruct (p x); simpl; lia.
Qed.

Lemma length_enumerate {A : Type} (l : list A) : length (enumerate l) = length l.
Proof. unfold enumerate. apply length_imap. Qed.

(** The whole state of the scoring loop after it has run over [l]. *)
Lemma score_loop_state (ua : gmap string answer_value) (l : list (nat * question))
    (sc : Z) (w : list string) :
  fold_left (score_step ua) l (sc, w) =
  (sc + Z.of_nat (length (List.filter (fun iq => is_correct ua (fst iq) (snd iq)) l)),
   w ++ map wrong_label (List.filter (is_wrong ua) l)).
Proof.
  revert sc w. induction l as [| [idx q] l IH]; intros sc w; simpl.
  - rewrite app_nil_r. f_equal. lia.
  - unfold is_wrong at 1. simpl. destruct (is_correct ua idx q) eqn:E; simpl.
    + rewrite IH. f_equal. lia.
    + rewrite IH. rewrite <- app_assoc. reflexivity.
Qed.

(** What [display_enhanced_quiz_results] computes, in closed form. *)
Lemma display_results_closed_form (qs : list question) (ua : gmap string answer_value) :
  qs <> [] ->
  display_enhanced_quiz_results {| questions := Some qs |} ua =
  Some {| score := Z.of_nat (matched_count ua qs);
          total_questions := Z.of_nat (length qs);
          wrong_topics := map wrong_label (List.filter (is_wrong ua) (enumerate qs));
          percentage := PrimFloat.mul (truediv (Z.of_nat (matched_count ua qs))
                                               (Z.of_nat (length qs)))
                                      (float_of_int 100);
          grade := grade_of (PrimFloat.mul (truediv (Z.of_nat (matched_count ua qs))
                                                    (Z.of_nat (length qs)))
                                           (float_of_int 100)) |}.
Proof.
  intros Hne. unfold display_enhanced_quiz_results. cbn [questions default]. unfold id.
  assert (Hsome : truthy qs = true) by (destruct qs; [contradiction | reflexivity]).
  rewrite Hsome. cbn [negb]. rewrite score_loop_state. reflexivity.
Qed.

(** Every question is counted once, as right or as wrong: where results
    are shown, [score + len(wrong_topics) = total_questions] with
    [0 <= score <= total_questions] and at least one question; nothing is
    shown exactly when the quiz has no question (or no ["questions"] key). *)
Theorem quiz_counts_every_question_once
    (quiz_data : quiz) (ua : gmap string answer_value) :
  match display_enhanced_quiz_results quiz_data ua with
  | None => default [] (questions quiz_data) = []
  | Some r =>
      total_questions r = Z.of_nat (length (default [] (questions quiz_data))) /\
      1 <= total_questions r /\
      0 <= score r <= total_questions r /\
      score r + Z.of_nat (length (wrong_topics r)) = total_questions r
  end.
Proof.
  destruct quiz_data as [[qs |]]; [| reflexivity].
  destruct qs as [| q0 qs']; [reflexivity |].
  rewrite display_results_closed_form by discriminate.
  cbn [score total_questions wrong_topics default questions]. unfold id.
  set (qs := q0 :: qs').
  pose proof (filter_split_length (fun iq => is_correct ua (fst iq) (snd iq)) (enumerate qs))
    as Hsplit.
  rewrite length_enumerate in Hsplit. rewrite length_map.
  unfold matched_count, is_wrong.
  assert (1 <= length qs)%nat by (simpl; lia).
  repeat split; lia.
Qed.

(** [wrong_topics] lists, in question order, one entry per question answered
    wrongly: its topic, or "Question k" (k counted from 1) when it has none;
    the score is the number of the others. *)
Theorem wrong_topics_in_question_order
    (qs : list question) (ua : gmap string answer_value) :
  match display_enhanced_quiz_results {| questions := Some qs |} ua with
  | None => qs = []
  | Some r =>
      score r = Z.of_nat (matched_count ua qs) /\
      wrong_topics r = map wrong_label (List.filter (is_wrong ua) (enumerate qs))
  end.
Proof.
  destruct qs as [| q0 qs']; [reflexivity |].
  rewrite display_results_closed_form by discriminate. split; reflexivity.
Qed.

Lemma grading_table_100 : grading_table_agrees 100 = true.
Proof. vm_compute. reflexivity. Qed.

Lemma grade_of_percentage_exact (score total : Z) :
  1 <= total <= 100 -> 0 <= score <= total ->
  grade_of (PrimFloat.mul (truediv score total) (float_of_int 100)) = exact_grade score total.
Proof.
  intros Ht Hs. pose proof grading_table_100 as Htab.
  unfold grading_table_agrees in Htab. rewrite forallb_forall in Htab.
  specialize (Htab total). rewrite forallb_forall in Htab.
  apply String.eqb_eq. apply Htab.
  - apply list_elem_of_In, elem_of_seqZ. lia.
  - apply list_elem_of_In, elem_of_seqZ. lia.
Qed.

(** For a quiz of at most 100 questions the binary64 percentage never
    misgrades: the grade is "A" exactly from 80 percent of the questions
    right ([5 * score >= 4 * total]), "B" from 60 percent, "C" below. *)
Theorem grade_agrees_with_exact_percentage
    (qs : list question) (ua : gmap string answer_value) (r : quiz_results) :
  (length qs <= 100)%nat ->
  display_enhanced_quiz_results {| questions := Some qs |} ua = Some r ->
  grade r = exact_grade (score r) (total_questions r).
Proof.
  intros Hlen Hr. destruct qs as [| q0 qs']; [discriminate |].
  rewrite display_results_closed_form in Hr by discriminate.
  injection Hr as <-. cbn [grade score total_questions].
  apply grade_of_percentage_exact.
  - simpl length in *. lia.
  - pose proof (filter_split_length (fun iq => is_correct ua (fst iq) (snd iq))
                  (enumerate (q0 :: qs'))) as Hsplit.
    rewrite length_enumerate in Hsplit. unfold matched_count.
    cbn [length] in *. lia.
Qed.

Lemma grade_agrees_with_exact_percentage_witness :
  exists r,
    display_enhanced_quiz_results {| questions := Some sample_questions |} sample_answers
      = Some r /\
    grade r = exact_grade (score r) (total_questions r).
Proof.
  eexists. split; [vm_compute; reflexivity |].
  apply (grade_agrees_with_exact_percentage sample_questions sample_answers);
    [vm_compute; lia | vm_compute; reflexivity].
Defined.

(** A question without an answer (no ["answer"] key, or an empty one) that
    the user left without an entry is scored as right, both sides
    defaulting to the empty string: a quiz of such questions, up to 100 of
    them, scores full marks and the grade "A". *)
Theorem blank_quiz_scores_full_marks
    (qs : list question) (ua : gmap string answer_value) :
  qs <> [] -> (length qs <= 100)%nat ->
  (forall idx, (idx < length qs)%nat -> ua !! answer_key idx = None) ->
  Forall (fun q => question_answer q = None \/ question_answer q = Some (AStr "")) qs ->
  exists r,
    display_enhanced_quiz_results {| questions := Some qs |} ua = Some r /\
    score r = total_questions r /\
    wrong_topics r = [] /\
    grade r = "A".
Proof.
  intros Hne Hlen Hua Hqs.
  assert (Hall : Forall (fun iq => is_correct ua (fst iq) (snd iq) = true) (enumerate qs)).
  { apply Forall_forall. intros [idx q] Hin. unfold enumerate in Hin.
    apply elem_of_lookup_imap in Hin. destruct Hin as (i & y & Heq & Hlook).
    injection Heq as -> ->. cbn [fst snd]. unfold is_correct.
    rewrite Hua by (apply lookup_lt_Some in Hlook; exact Hlook).
    rewrite Forall_forall in Hqs.
    destruct (Hqs y) as [-> | ->]; [eapply list_elem_of_lookup_2; exact Hlook | |];
      reflexivity. }
  assert (Hcount : matched_count ua qs = length qs).
  { unfold matched_count. rewrite filter_keeps_all by exact Hall. apply length_enumerate. }
  eexists. split; [apply display_results_closed_form; exact Hne |].
  cbn [score total_questions wrong_topics grade]. rewrite Hcount.
  split; [reflexivity |]. split.
  - rewrite filter_keeps_none; [reflexivity |].
    eapply Forall_impl; [exact Hall |]. intros iq Hc. unfold is_wrong. now rewrite Hc.
  - rewrite grade_of_percentage_exact.
    + unfold exact_grade. destruct (Z.leb_spec (4 * Z.of_nat (length qs)) (5 * Z.of_nat (length qs)));
        [reflexivity | lia].
    + destruct qs; [contradiction | simpl length in *; lia].
    + lia.
Qed.

Lemma blank_quiz_scores_full_marks_witness :
  exists r,
    display_enhanced_quiz_results {| questions := Some [blank_question; blank_question] |} ∅
      = Some r /\
    score r = total_questions r /\
    wrong_topics r = [] /\
    grade r = "A".
Proof.
  apply (blank_quiz_scores_full_marks [blank_question; blank_question] ∅).
  - discriminate.
  - simpl. lia.
  - intros idx _. apply lookup_empty.
  - repeat constructor.
Defined.

End QuizScoring.

(** ** Properties of the quiz form *)

Section QuizForm.
Import Py FileApp Session.

Lemma answer_key_inj (i j : nat) : answer_key i = answer_key j -> i = j.
Proof.
  unfold answer_key. intros E. apply (inj (String.append "q_")) in E.
  apply (inj pretty) in E. exact E.
Qed.

Lemma enumerate_snoc {A : Type} (l : list A) (x : A) :
  enumerate (l ++ [x]) = enumerate l ++ [(length l, x)].
Proof.
  unfold enumerate. rewrite imap_app. simpl. f_equal. f_equal. f_equal. lia.
Qed.

(** What the form leaves under the key of question [i]. *)
Lemma collect_answers_lookup (choice : nat -> answer_value) (qs : list question)
    (ua : gmap string answer_value) (i : nat) :
  collect_answers choice qs ua !! answer_key i =
  match qs !! i with
  | Some q => if truthy (question_options q) then Some (choice i) else ua !! answer_key i
  | None => ua !! answer_key i
  end.
Proof.
  unfold collect_answers. induction qs as [| q qs IH] using rev_ind.
  - reflexivity.
  - rewrite enumerate_snoc, fold_left_app. cbn [fold_left collect_step].
    destruct (decide (i = length qs)) as [-> | Hne].
    + rewrite list_lookup_middle by reflexivity.
      destruct (truthy (question_options q)).
      * apply lookup_insert_eq.
      * rewrite IH. rewrite lookup_ge_None_2 by lia. reflexivity.
    + assert (Hside : (qs ++ [q]) !! i = qs !! i).
      { destruct (Nat.lt_ge_cases i (length qs)) as [Hlt | Hge].
        - apply lookup_app_l. exact Hlt.
        - rewrite !lookup_ge_None_2; [reflexivity | lia | rewrite length_app; simpl; lia]. }
      rewrite Hside. destruct (truthy (question_options q)).
      * rewrite lookup_insert_ne; [exact IH |].
        intros E. apply answer_key_inj in E. congruence.
      * exact IH.
Qed.

Lemma unanswered_loop (ua : gmap string answer_value) (l : list nat) (acc : list nat) :
  fold_left (unanswered_step ua) l acc =
  acc ++ map (fun idx => (idx + 1)%nat) (List.filter (is_unanswered ua) l).
Proof.
  revert acc. induction l as [| idx l IH]; intros acc; simpl.
  - now rewrite app_nil_r.
  - unfold unanswered_step at 2. destruct (is_unanswered ua idx); simpl.
    + rewrite IH, <- app_assoc. reflexivity.
    + apply IH.
Qed.

Lemma submission_accepted_spec (qs : list question) (ua : gmap string answer_value) :
  submission_accepted qs ua = true <->
  forall idx, (idx < length qs)%nat -> exists s, ua !! answer_key idx = Some (AStr s).
Proof.
  unfold submission_accepted, unanswered_questions. rewrite unanswered_loop.
  cbn [app]. split.
  - intros Hacc idx Hidx.
    destruct (List.filter (is_unanswered ua) (seq 0 (length qs))) as [| x l] eqn:E;
      [| discriminate].
    assert (Hnot : is_unanswered ua idx = false).
    { destruct (is_unanswered ua idx) eqn:Eu; [exfalso | reflexivity].
      assert (Hin : In idx (List.filter (is_unanswered ua) (seq 0 (length qs)))).
      { apply filter_In. split; [apply in_seq; lia | exact Eu]. }
      rewrite E in Hin. destruct Hin. }
    unfold is_unanswered in Hnot.
    destruct (ua !! answer_key idx) as [[| s] |]; try discriminate. eexists. reflexivity.
  - intros Hall. rewrite filter_keeps_none; [reflexivity |].
    apply Forall_forall. intros idx Hin. apply list_elem_of_In, in_seq in Hin.
    destruct (Hall idx ltac:(lia)) as [s Hs]. unfold is_unanswered. now rewrite Hs.
Qed.

(** Pressing submit is accepted exactly when every question of the quiz has
    a selected option stored under its key; otherwise the message lists the
    numbers (from 1, increasing) of the questions without one. *)
Theorem submission_accepted_iff_all_answered
    (qs : list question) (ua : gmap string answer_value) :
  unanswered_questions qs ua =
    map (fun idx => (idx + 1)%nat) (List.filter (is_unanswered ua) (seq 0 (length qs))) /\
  (submission_accepted qs ua = true <->
   forall idx, (idx < length qs)%nat -> exists s, ua !! answer_key idx = Some (AStr s)).
Proof.
  split; [apply unanswered_loop | apply submission_accepted_spec].
Qed.

(** A quiz can be submitted, from an answer store that was reset, exactly
    when every question has options and an option is selected for each;
    one question without options blocks the submission for good. *)
Theorem fresh_form_accepted_iff_options_and_choices
    (choice : nat -> answer_value) (qs : list question) :
  submission_accepted qs (collect_answers choice qs ∅) = true <->
  forall idx q, qs !! idx = Some q ->
    question_options q <> [] /\ exists s, choice idx = AStr s.
Proof.
  rewrite submission_accepted_spec. split.
  - intros Hall idx q Hq.
    destruct (Hall idx (lookup_lt_Some _ _ _ Hq)) as [s Hs].
    rewrite collect_answers_lookup, Hq in Hs.
    destruct (question_options q) as [| o os] eqn:Eo; cbn [truthy] in Hs.
    + rewrite lookup_empty in Hs. discriminate.
    + split; [discriminate |]. exists s. congruence.
  - intros Hall idx Hidx.
    destruct (lookup_lt_is_Some_2 qs idx Hidx) as [q Hq].
    destruct (Hall idx q Hq) as [Hopt [s Hs]].
    exists s. rewrite collect_answers_lookup, Hq.
    destruct (question_options q); [contradiction |]. cbn [truthy]. now rewrite Hs.
Qed.

(** Drawing the form overwrites the entry of each question that has
    options with the current selection and leaves every other key of the
    answer store as it was. *)
Theorem form_stores_selection_under_question_key
    (choice : nat -> answer_value) (qs : list question)
    (ua : gmap string answer_value) (idx : nat) (q : question) :
  qs !! idx = Some q ->
  collect_answers choice qs ua !! answer_key idx =
    (if truthy (question_options q) then Some (choice idx) else ua !! answer_key idx) /\
  (forall j, (length qs <= j)%nat ->
     collect_answers choice qs ua !! answer_key j = ua !! answer_key j).
Proof.
  intros Hq. split.
  - rewrite collect_answers_lookup, Hq. reflexivity.
  - intros j Hj. rewrite collect_answers_lookup.
    rewrite lookup_ge_None_2 by exact Hj. reflexivity.
Qed.

Lemma form_stores_selection_under_question_key_witness :
  collect_answers (fun _ => AStr "b") Quiz.sample_questions Quiz.sample_answers
    !! answer_key 3 = Some (AStr "b") /\
  (forall j, (length Quiz.sample_questions <= j)%nat ->
     collect_answers (fun _ => AStr "b") Quiz.sample_questions Quiz.sample_answers
       !! answer_key j = Quiz.sample_answers !! answer_key j).
Proof.
  apply (form_stores_selection_under_question_key (fun _ => AStr "b")
           Quiz.sample_questions Quiz.sample_answers 3 (Quiz.ask "d" (Some "Algebra"))).
  reflexivity.
Defined.

End QuizForm.

(** ** Further properties of the gateway wrappers *)

Section GatewayFurther.
Import Py Agents Gateway.
Variable json : Type.
Variable json_loads : string -> result json.
Variable json_dumps : syllabus -> string.

(** Neither [run_timetable_planner] nor [run_question_generation_agent]
    ever raises: whether the agent, the tool or the JSON codec return or
    raise, and whatever they return, the caller gets a value. *)
Theorem gateway_wrappers_never_raise
    (get_agent : result (string -> result (value json)))
    (generate_questions : string -> Z -> result (value json))
    (syl : syllabus) (end_date exam_name : string) (n : Z) :
  (exists v, run_timetable_planner json json_loads json_dumps get_agent syl end_date
             = Returned v) /\
  (exists v, run_question_generation_agent json json_loads generate_questions exam_name n
             = Returned v).
Proof.
  split.
  - apply run_timetable_planner_returns.
  - apply run_question_generation_agent_returns.
Qed.

(** Only [JSONDecodeError] is handled next to the parse. When [json.loads]
    raises anything else on the response text, the outer handler takes
    over: the planner wrapper returns [[]], not the text, and the quiz
    wrapper returns [None]. *)
Theorem other_parse_exception_discards_text
    (get_agent : result (string -> result (value json)))
    (agent : string -> result (value json))
    (generate_questions : string -> Z -> result (value json))
    (syl : syllabus) (end_date exam_name : string) (n : Z) (s : string) (e : exn) :
  json_loads s = Raised e ->
  e <> JSONDecodeError ->
  get_agent = Returned agent ->
  agent (timetable_prompt (json_dumps syl) end_date) = Returned (VStr s) ->
  generate_questions exam_name n = Returned (VStr s) ->
  run_timetable_planner json json_loads json_dumps get_agent syl end_date
    = Returned VEmptyList /\
  run_question_generation_agent json json_loads generate_questions exam_name n
    = Returned VNone.
Proof.
  intros Hparse Hother Hget Hrun Htool.
  assert (Hnot : is_JSONDecodeError e = false) by (destruct e; [| contradiction |]; reflexivity).
  split.
  - unfold run_timetable_planner. rewrite Hget. cbn. rewrite Hrun. cbn.
    rewrite Hparse. cbn. rewrite Hnot. reflexivity.
  - unfold run_question_generation_agent. rewrite Htool. cbn.
    rewrite Hparse. cbn. rewrite Hnot. reflexivity.
Qed.

(** A response text that parses is returned parsed by both wrappers, and a
    response that is not text is passed on unchanged, without being parsed. *)
Theorem parsed_or_passed_on
    (get_agent : result (string -> result (value json)))
    (agent : string -> result (value json))
    (generate_questions : string -> Z -> result (value json))
    (syl : syllabus) (end_date exam_name : string) (n : Z) (response : value json) :
  get_agent = Returned agent ->
  agent (timetable_prompt (json_dumps syl) end_date) = Returned response ->
  generate_questions exam_name n = Returned response ->
  match response with
  | VStr s =>
      forall j, json_loads s = Returned j ->
        run_timetable_planner json json_loads json_dumps get_agent syl end_date
          = Returned (VJson j) /\
        run_question_generation_agent json json_loads generate_questions exam_name n
          = Returned (VJson j)
  | other =>
      run_timetable_planner json json_loads json_dumps get_agent syl end_date
        = Returned other /\
      run_question_generation_agent json json_loads generate_questions exam_name n
        = Returned other
  end.
Proof.
  intros Hget Hrun Htool. unfold run_timetable_planner, run_question_generation_agent.
  rewrite Hget, Htool. cbn. rewrite Hrun. cbn.
  destruct response as [s | j | |]; try (split; reflexivity).
  intros j Hj. rewrite Hj. split; reflexivity.
Qed.

(** When the agent cannot be built or its run raises, the planner wrapper
    returns the empty list; when the tool call raises, the quiz wrapper
    returns [None]. *)
Theorem gateway_failure_fallbacks
    (get_agent : result (string -> result (value json)))
    (generate_questions : string -> Z -> result (value json))
    (syl : syllabus) (end_date exam_name : string) (n : Z) (e : exn) :
  (get_agent = Raised e \/
   exists agent, get_agent = Returned agent /\
                 agent (timetable_prompt (json_dumps syl) end_date) = Raised e) ->
  generate_questions exam_name n = Raised e ->
  run_timetable_planner json json_loads json_dumps get_agent syl end_date
    = Returned VEmptyList /\
  run_question_generation_agent json json_loads generate_questions exam_name n
    = Returned VNone.
Proof.
  intros Hagent Htool. split.
  - unfold run_timetable_planner. destruct Hagent as [-> | (agent & -> & Hrun)]; cbn.
    + reflexivity.
    + rewrite Hrun. reflexivity.
  - unfold run_question_generation_agent. rewrite Htool. reflexivity.
Qed.

(** [run_exam_preparator] never raises. It returns [{}] when the agent
    cannot be built or its run raises; otherwise the parsed response when
    [json.loads] accepts it, and the response itself whenever [json.loads]
    raises, whatever the exception. *)
Theorem run_exam_preparator_outcomes (empty_dict : json)
    (get_agent : result (string -> result (value json))) (exam_name : string) :
  (exists v, run_exam_preparator json json_loads empty_dict get_agent exam_name
             = Returned v) /\
  ((exists e, get_agent = Raised e) \/
   (exists agent e, get_agent = Returned agent /\ agent (exam_prompt exam_name) = Raised e) ->
   run_exam_preparator json json_loads empty_dict get_agent exam_name
     = Returned (VJson empty_dict)) /\
  (forall agent response,
     get_agent = Returned agent ->
     agent (exam_prompt exam_name) = Returned response ->
     (forall j, json_loads_any json json_loads response = Returned j ->
        run_exam_preparator json json_loads empty_dict get_agent exam_name
          = Returned (VJson j)) /\
     (forall e, json_loads_any json json_loads response = Raised e ->
        run_exam_preparator json json_loads empty_dict get_agent exam_name
          = Returned response)).
Proof.
  unfold run_exam_preparator.
  destruct get_agent as [agent | e]; cbn.
  - destruct (agent (exam_prompt exam_name)) as [response | e] eqn:Hrun; cbn.
    + destruct (json_loads_any json json_loads response) as [j | e] eqn:Hparse; cbn.
      * split; [eexists; reflexivity |]. split.
        -- intros [[e He] | (a & e & Ha & He)]; [discriminate |].
           injection Ha as <-. congruence.
        -- intros a r Ha Hr. injection Ha as <-. rewrite Hrun in Hr.
           injection Hr as <-. rewrite Hparse.
           split; [intros j' Hj'; injection Hj' as <-; reflexivity | discriminate].
      * split; [eexists; reflexivity |]. split.
        -- intros [[e' He] | (a & e' & Ha & He)]; [discriminate |].
           injection Ha as <-. congruence.
        -- intros a r Ha Hr. injection Ha as <-. rewrite Hrun in Hr.
           injection Hr as <-. rewrite Hparse.
           split; [discriminate | reflexivity].
    + split; [eexists; reflexivity |]. split.
      * intros _. reflexivity.
      * intros a r Ha Hr. injection Ha as <-. congruence.
  - split; [eexists; reflexivity |]. split.
    + intros _. reflexivity.
    + intros a r Ha. discriminate.
Qed.

(** [generate_questions_direct] never raises. When the reply is text whose
    cleaned form [json.loads] accepts, it returns what [json.loads]
    returned; when the model call raised, the reply is not text, or the
    parse raised anything, it returns [None]. *)
Theorem generate_questions_direct_outcomes (llm_content : result (value json)) :
  (exists v, generate_questions_direct json json_loads llm_content = Returned v) /\
  (forall s parsed,
     llm_content = Returned (VStr s) ->
     json_loads (string_of_list_ascii
       (Text.generate_questions_direct_cleanup (list_ascii_of_string s)))
     = Returned parsed ->
     generate_questions_direct json json_loads llm_content = Returned (VJson parsed)) /\
  ((exists e, llm_content = Raised e) \/
   (exists x, llm_content = Returned x /\ forall s, x <> VStr s) \/
   (exists s e, llm_content = Returned (VStr s) /\
      json_loads (string_of_list_ascii
        (Text.generate_questions_direct_cleanup (list_ascii_of_string s)))
      = Raised e) ->
   generate_questions_direct json json_loads llm_content = Returned VNone).
Proof.
  unfold generate_questions_direct.
  destruct llm_content as [x | e]; cbn.
  - destruct x as [s | j | |]; cbn.
    + destruct (json_loads _) as [parsed | e] eqn:Hparse; cbn.
      * split; [eexists; reflexivity |]. split.
        -- intros s' p Hs' Hp. injection Hs' as <-. congruence.
        -- intros [[e He] | [(x & Hx & Hno) | (s' & e & Hs' & He)]].
           ++ discriminate.
           ++ injection Hx as <-. exfalso. apply (Hno s). reflexivity.
           ++ injection Hs' as <-. congruence.
      * split; [eexists; reflexivity |]. split.
        -- intros s' p Hs' Hp. injection Hs' as <-. congruence.
        -- intros _. reflexivity.
    + split; [eexists; reflexivity |]. split;
        [intros s' p Hs'; discriminate | intros _; reflexivity].
    + split; [eexists; reflexivity |]. split;
        [intros s' p Hs'; discriminate | intros _; reflexivity].
    + split; [eexists; reflexivity |]. split;
        [intros s' p Hs'; discriminate | intros _; reflexivity].
  - split; [eexists; reflexivity |]. split;
      [intros s' p Hs'; discriminate | intros _; reflexivity].
Qed.

End GatewayFurther.

Lemma other_parse_exception_discards_text_witness :
  Agents.run_timetable_planner unit
    (fun _ => Py.Raised (Py.OtherException "RecursionError")) (fun _ => "{}")
    (Py.Returned Quiz.plain_text_agent) Samples.two_subjects "2030-01-01"
    = Py.Returned Agents.VEmptyList /\
  Agents.run_question_generation_agent unit
    (fun _ => Py.Raised (Py.OtherException "RecursionError")) Quiz.plain_text_tool "JEE" 5
    = Py.Returned Agents.VNone.
Proof.
  apply (other_parse_exception_discards_text unit
           (fun _ => Py.Raised (Py.OtherException "RecursionError")) (fun _ => "{}")
           (Py.Returned Quiz.plain_text_agent) Quiz.plain_text_agent Quiz.plain_text_tool
           Samples.two_subjects "2030-01-01" "JEE" 5 "Day 1: Algebra"
           (Py.OtherException "RecursionError"));
    try reflexivity. discriminate.
Defined.

Lemma parsed_or_passed_on_witness :
  Agents.run_timetable_planner unit (fun _ => Py.Returned tt) (fun _ => "{}")
    (Py.Returned Quiz.plain_text_agent) Samples.two_subjects "2030-01-01"
    = Py.Returned (Agents.VJson tt) /\
  Agents.run_question_generation_agent unit (fun _ => Py.Returned tt)
    Quiz.plain_text_tool "JEE" 5
    = Py.Returned (Agents.VJson tt).
Proof.
  apply (parsed_or_passed_on unit (fun _ => Py.Returned tt) (fun _ => "{}")
           (Py.Returned Quiz.plain_text_agent) Quiz.plain_text_agent Quiz.plain_text_tool
           Samples.two_subjects "2030-01-01" "JEE" 5 (Agents.VStr "Day 1: Algebra")
           eq_refl eq_refl eq_refl tt eq_refl).
Defined.

Lemma gateway_failure_fallbacks_witness :
  Agents.run_timetable_planner unit Quiz.never_parses (fun _ => "{}")
    (Py.Raised (Py.OtherException "no key")) Samples.two_subjects "2030-01-01"
    = Py.Returned Agents.VEmptyList /\
  Agents.run_question_generation_agent unit Quiz.never_parses
    (fun _ _ => Py.Raised (Py.OtherException "no key")) "JEE" 5
    = Py.Returned Agents.VNone.
Proof.
  apply (gateway_failure_fallbacks unit Quiz.never_parses (fun _ => "{}")
           (Py.Raised (Py.OtherException "no key"))
           (fun _ _ => Py.Raised (Py.OtherException "no key"))
           Samples.two_subjects "2030-01-01" "JEE" 5 (Py.OtherException "no key")).
  - left. reflexivity.
  - reflexivity.
Defined.

(** ** Properties of the response clean-up *)

Section TextCleanup.
Import Py Text.

Lemma lstrip_blank_prefix (ws l : str) : blank ws -> lstrip (ws ++ l) = lstrip l.
Proof.
  unfold blank. induction 1 as [| c ws Hc _ IH]; simpl; [reflexivity |]. now rewrite Hc.
Qed.

Lemma lstrip_blank (ws : str) : blank ws -> lstrip ws = [].
Proof.
  intros H. rewrite <- (app_nil_r ws). now rewrite lstrip_blank_prefix.
Qed.

Lemma lstrip_app_nonspace (u v : str) (c : ascii) :
  isspace c = false -> lstrip (u ++ c :: v) = lstrip u ++ c :: v.
Proof.
  intros Hc. induction u as [| a u IH]; simpl.
  - now rewrite Hc.
  - destruct (isspace a); [exact IH | reflexivity].
Qed.

Lemma rstrip_app_nonspace (u v : str) (c : ascii) :
  isspace c = false -> rstrip (u ++ c :: v) = u ++ c :: rstrip v.
Proof.
  intros Hc. unfold rstrip.
  assert (E1 : rev (u ++ c :: v) = rev v ++ c :: rev u).
  { rewrite rev_app_distr. simpl. now rewrite <- app_assoc. }
  assert (E2 : forall a : str, rev (a ++ c :: rev u) = u ++ c :: rev a).
  { intros a. rewrite rev_app_distr. simpl. now rewrite rev_involutive, <- app_assoc. }
  rewrite E1, lstrip_app_nonspace by exact Hc. apply E2.
Qed.

Lemma rstrip_blank (ws : str) : blank ws -> rstrip ws = [].
Proof.
  intros H. unfold rstrip. rewrite lstrip_blank; [reflexivity |].
  unfold blank in *. apply Forall_forall. intros c Hc. rewrite Forall_forall in H. apply H.
  apply list_elem_of_In. apply list_elem_of_In in Hc. apply in_rev. exact Hc.
Qed.

Lemma backtick_not_space : isspace "`"%char = false.
Proof. reflexivity. Qed.

(** Stripping a text that is fenced at both ends removes the blanks around
    it and nothing else. *)
Lemma strip_fenced (ws1 ws2 inner : str) :
  blank ws1 -> blank ws2 ->
  strip (ws1 ++ fence ++ inner ++ fence ++ ws2) = fence ++ inner ++ fence.
Proof.
  intros H1 H2. unfold strip. rewrite lstrip_blank_prefix by exact H1.
  change fence with ["`"; "`"; "`"]%char. cbn [app lstrip].
  rewrite backtick_not_space.
  assert (E : ("`" :: "`" :: "`" :: inner ++ "`" :: "`" :: "`" :: ws2)%char
              = ((["`"; "`"; "`"] ++ inner ++ ["`"; "`"]) ++ "`" :: ws2)%char).
  { cbn [app]. rewrite <- app_assoc. reflexivity. }
  rewrite E, rstrip_app_nonspace by exact backtick_not_space.
  rewrite rstrip_blank by exact H2. cbn [app]. rewrite <- app_assoc. reflexivity.
Qed.

Lemma slice_from_prefix (p rest : str) :
  slice_from (p ++ rest) (Z.of_nat (length p)) = rest.
Proof.
  unfold slice_from, slice, clamp_index. rewrite length_app.
  destruct (Z.ltb_spec (Z.of_nat (length p)) 0); [lia |].
  destruct (Z.ltb_spec (Z.of_nat (length p + length rest)) 0); [lia |].
  replace (Z.to_nat (Z.min (Z.of_nat (length p)) (Z.of_nat (length p + length rest))))
    with (length p) by lia.
  rewrite drop_app_length. apply take_ge. lia.
Qed.

Lemma slice_to_fence (b : str) : slice_to (b ++ fence) (-3) = b.
Proof.
  unfold slice_to, slice, clamp_index. rewrite length_app.
  change (length fence) with 3%nat. cbn [Z.ltb Z.compare].
  replace (Z.to_nat (Z.max 0 (-3 + Z.of_nat (length b + 3)) -
                     Z.min 0 (Z.of_nat (length b + 3)))) with (length b) by lia.
  replace (Z.to_nat (Z.min 0 (Z.of_nat (length b + 3)))) with 0%nat by lia.
  rewrite drop_0. apply take_app_length.
Qed.

Lemma endswith_fence (b : str) : endswith (b ++ fence) fence = true.
Proof. unfold endswith. apply bool_decide_eq_true_2. exists b. reflexivity. Qed.

Lemma startswith_prefix (p rest : str) : startswith (p ++ rest) p = true.
Proof. unfold startswith. apply bool_decide_eq_true_2. exists rest. reflexivity. Qed.

Lemma lstrip_idem (s : str) : lstrip (lstrip s) = lstrip s.
Proof.
  induction s as [| c s IH]; simpl; [reflexivity |].
  destruct (isspace c) eqn:E; [exact IH |]. simpl. now rewrite E.
Qed.

Lemma rstrip_idem (s : str) : rstrip (rstrip s) = rstrip s.
Proof. unfold rstrip. now rewrite rev_involutive, lstrip_idem. Qed.

Lemma lstrip_rstrip_fixed (z : str) : lstrip z = z -> lstrip (rstrip z) = rstrip z.
Proof.
  intros Hz. destruct z as [| c v]; [reflexivity |].
  simpl in Hz. destruct (isspace c) eqn:E.
  - exfalso. assert (Hlen : length (lstrip v) = length (c :: v)) by now rewrite Hz.
    assert (Hle : forall l, (length (lstrip l) <= length l)%nat).
    { induction l as [| a l IH]; simpl; [lia |]. destruct (isspace a); simpl; lia. }
    specialize (Hle v). simpl in Hlen. lia.
  - pose proof (rstrip_app_nonspace [] v c E) as Hr. cbn [app] in Hr.
    rewrite Hr. simpl. now rewrite E.
Qed.

Lemma strip_fixed (s : str) : lstrip (strip s) = strip s /\ rstrip (strip s) = strip s.
Proof.
  unfold strip. split.
  - apply lstrip_rstrip_fixed, lstrip_idem.
  - apply rstrip_idem.
Qed.

Lemma strip_idem (s : str) : strip (strip s) = strip s.
Proof.
  destruct (strip_fixed s) as [Hl Hr]. unfold strip at 1. now rewrite Hl, Hr.
Qed.

Lemma json_fenced_cleanups (ws1 ws2 body : str) :
  blank ws1 -> blank ws2 ->
  generate_questions_cleanup (ws1 ++ json_fence ++ body ++ fence ++ ws2) = strip body /\
  generate_questions_direct_cleanup (ws1 ++ json_fence ++ body ++ fence ++ ws2) = strip body.
Proof.
  intros H1 H2.
  assert (E : strip (ws1 ++ json_fence ++ body ++ fence ++ ws2)
              = json_fence ++ body ++ fence).
  { change json_fence with (fence ++ lit "json"). rewrite <- !app_assoc.
    rewrite (app_assoc (lit "json") body). apply strip_fenced; assumption. }
  unfold generate_questions_cleanup, generate_questions_direct_cleanup.
  rewrite E, startswith_prefix.
  change 7 with (Z.of_nat (length json_fence)).
  rewrite slice_from_prefix, endswith_fence, slice_to_fence. split; reflexivity.
Qed.

(** A reply fenced as [```json ... ```], with any blanks around the fences,
    is reduced to its stripped body by both clean-ups. *)
Theorem json_fenced_reply_is_unwrapped (ws1 ws2 body : str) :
  blank ws1 -> blank ws2 ->
  generate_questions_cleanup (ws1 ++ json_fence ++ body ++ fence ++ ws2) = strip body /\
  generate_questions_direct_cleanup (ws1 ++ json_fence ++ body ++ fence ++ ws2) = strip body.
Proof. intros H1 H2. apply json_fenced_cleanups; assumption. Qed.

Lemma json_fenced_reply_is_unwrapped_witness :
  generate_questions_cleanup
    ([" "%char] ++ json_fence ++ lit "{}" ++ fence ++ [" "%char]) = strip (lit "{}") /\
  generate_questions_direct_cleanup
    ([" "%char] ++ json_fence ++ lit "{}" ++ fence ++ [" "%char]) = strip (lit "{}").
Proof.
  apply (json_fenced_reply_is_unwrapped [" "%char] [" "%char] (lit "{}"));
    repeat constructor.
Defined.

(** A reply fenced without the language tag is unwrapped by the clean-up of
    [generate_questions_direct] only: the clean-up of [generate_questions]
    has no branch for it and leaves the opening fence in the text. *)
Theorem bare_fence_survives_tool_cleanup (ws1 ws2 body : str) :
  blank ws1 -> blank ws2 ->
  startswith (body ++ fence) (lit "json") = false ->
  generate_questions_cleanup (ws1 ++ fence ++ body ++ fence ++ ws2)
    = fence ++ rstrip body /\
  generate_questions_direct_cleanup (ws1 ++ fence ++ body ++ fence ++ ws2)
    = strip body.
Proof.
  intros H1 H2 Hjson.
  assert (Hnot : startswith (fence ++ body ++ fence) json_fence = false).
  { unfold startswith in *. apply bool_decide_eq_false_2.
    apply bool_decide_eq_false_1 in Hjson. intros Hp. apply Hjson.
    change json_fence with (fence ++ lit "json") in Hp.
    apply prefix_app_inv in Hp. exact Hp. }
  unfold generate_questions_cleanup, generate_questions_direct_cleanup.
  rewrite strip_fenced by assumption. rewrite Hnot. split.
  - rewrite (app_assoc fence body fence), endswith_fence, slice_to_fence.
    unfold strip. change fence with ["`"; "`"; "`"]%char. cbn [app lstrip].
    rewrite backtick_not_space.
    apply (rstrip_app_nonspace ["`"; "`"]%char body "`"%char backtick_not_space).
  - rewrite startswith_prefix.
    change 3 with (Z.of_nat (length fence)).
    rewrite slice_from_prefix, endswith_fence, slice_to_fence. reflexivity.
Qed.

Lemma bare_fence_survives_tool_cleanup_witness :
  generate_questions_cleanup ([" "%char] ++ fence ++ lit "{}" ++ fence ++ [])
    = fence ++ rstrip (lit "{}") /\
  generate_questions_direct_cleanup ([" "%char] ++ fence ++ lit "{}" ++ fence ++ [])
    = strip (lit "{}").
Proof.
  apply (bare_fence_survives_tool_cleanup [" "%char] [] (lit "{}"));
    [repeat constructor | constructor | reflexivity].
Defined.

(** Whatever the reply, the cleaned text has no blank at either end; and a
    reply that, once stripped, neither starts nor ends with a fence is only
    stripped. *)
Theorem cleaned_reply_is_stripped (content : str) :
  (lstrip (generate_questions_cleanup content) = generate_questions_cleanup content /\
   rstrip (generate_questions_cleanup content) = generate_questions_cleanup content) /\
  (lstrip (generate_questions_direct_cleanup content)
     = generate_questions_direct_cleanup content /\
   rstrip (generate_questions_direct_cleanup content)
     = generate_questions_direct_cleanup content) /\
  (startswith (strip content) fence = false ->
   endswith (strip content) fence = false ->
   generate_questions_cleanup content = strip content /\
   generate_questions_direct_cleanup content = strip content).
Proof.
  split; [apply strip_fixed |]. split; [apply strip_fixed |].
  intros Hstart Hend.
  assert (Hjson : startswith (strip content) json_fence = false).
  { unfold startswith in *. apply bool_decide_eq_false_2.
    apply bool_decide_eq_false_1 in Hstart. intros Hp. apply Hstart.
    change json_fence with (fence ++ lit "json") in Hp.
    destruct Hp as [k Hk]. exists (lit "json" ++ k). rewrite Hk.
    now rewrite <- app_assoc. }
  unfold generate_questions_cleanup, generate_questions_direct_cleanup.
  rewrite Hjson, Hstart, Hend, strip_idem. split; reflexivity.
Qed.

End TextCleanup.

(** ** The direct quiz generation on a fenced reply *)

Section DirectQuiz.
Import Py Agents Gateway Text.
Variable json : Type.
Variable json_loads : string -> result json.

(** When the model replies with JSON inside a [```json] fence,
    [generate_questions_direct] returns what [json.loads] makes of the
    stripped body of the fence. *)
Theorem fenced_quiz_reply_is_parsed
    (s : string) (ws1 ws2 body : str) (parsed : json) :
  list_ascii_of_string s = ws1 ++ json_fence ++ body ++ fence ++ ws2 ->
  blank ws1 -> blank ws2 ->
  json_loads (string_of_list_ascii (strip body)) = Returned parsed ->
  generate_questions_direct json json_loads (Returned (VStr s)) = Returned (VJson parsed).
Proof.
  intros Hs H1 H2 Hparse. unfold generate_questions_direct. cbn.
  rewrite Hs. destruct (json_fenced_cleanups ws1 ws2 body H1 H2) as [_ ->].
  rewrite Hparse. reflexivity.
Qed.

End DirectQuiz.

Lemma fenced_quiz_reply_is_parsed_witness :
  Gateway.generate_questions_direct unit (fun _ => Py.Returned tt)
    (Py.Returned (Agents.VStr "```json{}```")) = Py.Returned (Agents.VJson tt).
Proof.
  apply (fenced_quiz_reply_is_parsed unit (fun _ => Py.Returned tt)
           "```json{}```" [] [] (Text.lit "{}") tt);
    [reflexivity | constructor | constructor | reflexivity].
Defined.

(** ** Further properties of the timetable partitioner *)

Section PartitionerFurther.
Import Py Agents Plan Further Session.

Lemma take_all_iff {A : Type} (n : nat) (l : list A) :
  take n l = l <-> (length l <= n)%nat.
Proof.
  split.
  - intros E. rewrite <- E at 1. rewrite length_take. lia.
  - intros H. apply take_ge. exact H.
Qed.

(** The flattened topic list is what the study days schedule, in order,
    followed by what they leave out: nothing is scheduled twice or out of
    order, and the topics dropped are the last ones. *)
Theorem topic_list_is_scheduled_then_dropped
    (today : datetime) (syl : syllabus) (target : datetime) :
  let S := study_days_of (days_left today target) in
  let T := Z.of_nat (length (topic_list_of syl)) in
  let tpd := topics_per_day_of T S in
  exists plan dropped,
    create_timetable_direct today syl target = Returned plan /\
    topic_list_of syl = scheduled plan ++ dropped /\
    Z.of_nat (length dropped) = T - Z.min (windows_used T tpd S * tpd) T.
Proof.
  intros S T tpd.
  destruct (scheduled_topics_prefix today syl target) as (plan & Hplan & Hsched).
  fold S T tpd in Hsched.
  exists plan, (drop (Z.to_nat (Z.min (windows_used T tpd S * tpd) T)) (topic_list_of syl)).
  split; [exact Hplan |]. split.
  - rewrite Hsched. symmetry. apply take_drop.
  - rewrite length_drop.
    pose proof (study_days_nonneg _ (days_left_pos today target)) as HS. fold S in HS.
    pose proof (windows_emitted_bounds T S ltac:(unfold T; lia) HS) as Hk. fold tpd in Hk.
    assert (0 <= tpd).
    { unfold tpd, topics_per_day_of. destruct (Z.ltb_spec 0 S); unfold T; lia. }
    unfold T in *. nia.
Qed.

Lemma windows_cover_iff (T S : Z) :
  0 <= T -> 0 <= S ->
  (T <= windows_used T (topics_per_day_of T S) S * topics_per_day_of T S <->
   T = 0 \/ (0 < S /\ (T <= S \/ T mod S = 0))).
Proof.
  intros HT HS. unfold windows_used, topics_per_day_of.
  destruct (Z.ltb_spec 0 S) as [Hpos | Hzero]; [| lia].
  pose proof (Z.div_mod T S ltac:(lia)) as Hdm.
  pose proof (Z.mod_pos_bound T S Hpos) as Hmod.
  assert (Hq : 0 <= T / S) by (apply Z.div_pos; lia).
  destruct (Z.le_gt_cases (T / S) 0) as [Hq0 | Hq1].
  - (* fewer topics than study days *)
    assert (Eq : T / S = 0) by lia.
    replace (Z.max 1 (T / S)) with 1 by lia.
    replace ((T + 1 - 1) / 1) with T by (rewrite Z.div_1_r; lia).
    split; intros H; [| nia]. right. split; [exact Hpos |]. left. nia.
  - replace (Z.max 1 (T / S)) with (T / S) by lia.
    set (q := T / S) in *.
    assert (Hceil : S <= (T + q - 1) / q) by (apply Z.div_le_lower_bound; nia).
    replace (Z.min S ((T + q - 1) / q)) with S by lia.
    split; intros H.
    + right. split; [exact Hpos |]. right. nia.
    + destruct H as [H0 | (_ & [Hle | Hdiv])]; nia.
Qed.

(** Every topic of the syllabus is scheduled exactly when the syllabus is
    empty, or there is a study day and either the topics are no more than
    the study days or the study days divide their number evenly. *)
Theorem all_topics_scheduled_iff
    (today : datetime) (syl : syllabus) (target : datetime) :
  let S := study_days_of (days_left today target) in
  let T := Z.of_nat (length (topic_list_of syl)) in
  exists plan,
    create_timetable_direct today syl target = Returned plan /\
    (scheduled plan = topic_list_of syl <->
     T = 0 \/ (0 < S /\ (T <= S \/ T mod S = 0))).
Proof.
  intros S T.
  destruct (scheduled_topics_prefix today syl target) as (plan & Hplan & Hsched).
  fold S T in Hsched. exists plan. split; [exact Hplan |].
  pose proof (study_days_nonneg _ (days_left_pos today target)) as HS. fold S in HS.
  assert (HT : 0 <= T) by (unfold T; lia).
  rewrite <- (windows_cover_iff T S HT HS).
  rewrite Hsched, take_all_iff.
  pose proof (windows_emitted_bounds T S HT HS) as Hk.
  assert (0 <= topics_per_day_of T S).
  { unfold topics_per_day_of. destruct (Z.ltb_spec 0 S); lia. }
  unfold T in *. split; intros Hcover; nia.
Qed.

Lemma topic_count_window_entry (tl : list (string * string)) (tpd i : Z) :
  0 <= tpd -> 0 <= i ->
  topic_count (window_entry tl (Z.of_nat (length tl)) tpd i) =
  Z.max 0 (Z.min ((i + 1) * tpd) (Z.of_nat (length tl)) - Z.min (i * tpd) (Z.of_nat (length tl))).
Proof.
  intros Ht Hi. unfold topic_count, window_entry. cbn [topics].
  rewrite length_map. apply window_length; assumption.
Qed.

(** A study day holds at least one topic and at most [topics_per_day]
    topics, and every study day but the last one emitted holds exactly
    [topics_per_day]. *)
Theorem study_day_sizes
    (today : datetime) (syl : syllabus) (target : datetime) :
  let S := study_days_of (days_left today target) in
  let T := Z.of_nat (length (topic_list_of syl)) in
  let tpd := topics_per_day_of T S in
  exists plan,
    create_timetable_direct today syl target = Returned plan /\
    Forall (fun e => type e = study ->
              1 <= topic_count e <= tpd /\
              (day e < study_count plan -> topic_count e = tpd)) plan.
Proof.
  intros S T tpd. eexists. split; [apply create_timetable_direct_shape |].
  fold S T tpd.
  pose proof (study_days_nonneg _ (days_left_pos today target)) as HS. fold S in HS.
  pose proof (windows_emitted_bounds T S ltac:(unfold T; lia) HS) as Hk. fold tpd in Hk.
  set (k := windows_used T tpd S) in *.
  unfold study_count. rewrite study_entries_of_shape, length_map.
  unfold range. rewrite length_seqZ, Z2Nat.id by lia.
  apply Forall_app. split; apply Forall_map.
  - apply Forall_seqZ. intros i Hi _.
    assert (Hpos : 0 < S) by lia.
    pose proof (topics_per_day_pos T S Hpos) as Ht. fold tpd in Ht.
    assert (Hcut : forall j, j < k -> j * tpd < T).
    { intros j Hj. apply window_index_bound; [exact Ht |].
      unfold k, windows_used in Hj. destruct (Z.ltb_spec 0 S); lia. }
    pose proof (Hcut i ltac:(lia)) as Hi_lt.
    unfold T. rewrite topic_count_window_entry by lia. fold T.
    split; [nia |]. cbn [day window_entry]. intros Hday.
    pose proof (Hcut (i + 1) ltac:(lia)) as Hnext. nia.
  - apply Forall_forall. intros j _ Htype. discriminate.
Qed.

(** When fewer than two whole days are left (also when the exam date is
    today or past), the plan is a single revision day with index 1,
    whatever the syllabus holds. *)
Theorem last_day_plan_is_one_revision_day
    (today : datetime) (syl : syllabus) (target : datetime) :
  timedelta_days target today <= 1 ->
  create_timetable_direct today syl target =
  Returned [ {| day := 1; type := revision; topics := Label "Revise all covered topics" |} ].
Proof.
  intros Hdelta. apply one_day_left_plan. unfold days_left. lia.
Qed.

Lemma last_day_plan_is_one_revision_day_witness :
  create_timetable_direct Samples.this_morning Samples.five_topics (Samples.in_days 2) =
  Returned [ {| day := 1; type := revision; topics := Label "Revise all covered topics" |} ].
Proof.
  apply (last_day_plan_is_one_revision_day
           Samples.this_morning Samples.five_topics (Samples.in_days 2)).
  vm_compute. discriminate.
Defined.

Lemma to_micros_day_date (today : datetime) (e : day_entry) :
  to_micros (day_date today e) = to_micros today + (day e - 1) * us_per_day.
Proof. unfold to_micros, day_date. cbn [ordinal micros]. lia. Qed.

(** With at least one whole day left, the plan laid on the calendar the way
    [show_enhanced_roadmap] does it (day [n] on [today + (n - 1)] days)
    starts today, never passes day [D], and its last entry, the revision
    day [D], ends no later than the exam date begins. *)
Theorem planned_days_precede_exam
    (today : datetime) (syl : syllabus) (target : datetime) :
  1 <= timedelta_days target today ->
  let D := days_left today target in
  exists plan,
    create_timetable_direct today syl target = Returned plan /\
    Forall (fun e =>
              1 <= day e <= D /\
              to_micros today <= to_micros (day_date today e) /\
              to_micros (day_date today e) + us_per_day <= to_micros target) plan /\
    exists e, last plan = Some e /\ day e = D /\ type e = revision.
Proof.
  intros Hdelta D. eexists. split; [apply create_timetable_direct_shape |].
  fold D.
  pose proof (days_left_pos today target) as HD. fold D in HD.
  pose proof (study_days_nonneg D HD) as HS.
  pose proof (revision_days_bounds D HD) as HR.
  set (S := study_days_of D) in *. set (R := revision_days_of D) in *.
  set (tl := topic_list_of syl). set (T := Z.of_nat (length tl)).
  set (tpd := topics_per_day_of T S).
  pose proof (windows_emitted_bounds T S ltac:(unfold T; lia) HS) as Hk. fold tpd in Hk.
  set (k := windows_used T tpd S) in *.
  assert (HSR : S + R = D) by (unfold S, study_days_of; fold R; lia).
  assert (Hspan : D * us_per_day <= to_micros target - to_micros today).
  { unfold D, days_left. replace (Z.max 1 (timedelta_days target today))
      with (timedelta_days target today) by lia.
    unfold timedelta_days. rewrite Z.mul_comm. apply Z.mul_div_le. reflexivity. }
  assert (Hus : 0 < us_per_day) by reflexivity.
  assert (Hentry : forall e, 1 <= day e <= D ->
            1 <= day e <= D /\
            to_micros today <= to_micros (day_date today e) /\
            to_micros (day_date today e) + us_per_day <= to_micros target).
  { intros e He. rewrite to_micros_day_date. split; [exact He |]. nia. }
  split.
  - apply Forall_app. split; apply Forall_map, Forall_seqZ; intros i Hi; apply Hentry;
      cbn [day window_entry revision_entry]; lia.
  - exists (revision_entry S (R - 1)). split; [| split; [cbn [day revision_entry]; lia | reflexivity]].
    unfold range. replace R with ((R - 1) + 1) at 1 by lia.
    rewrite (seqZ_app 0 (R - 1) 1) by lia. rewrite map_app, app_assoc.
    replace (seqZ (0 + (R - 1)) 1) with [R - 1] by (rewrite seqZ_cons by lia; reflexivity).
    cbn [map]. apply last_snoc.
Qed.

Lemma planned_days_precede_exam_witness :
  exists plan,
    create_timetable_direct Samples.this_morning Samples.two_subjects (Samples.in_days 10)
      = Returned plan /\
    Forall (fun e =>
              1 <= day e <= days_left Samples.this_morning (Samples.in_days 10) /\
              to_micros Samples.this_morning <= to_micros (day_date Samples.this_morning e) /\
              to_micros (day_date Samples.this_morning e) + us_per_day
                <= to_micros (Samples.in_days 10)) plan /\
    exists e, last plan = Some e /\
              day e = days_left Samples.this_morning (Samples.in_days 10) /\
              type e = revision.
Proof.
  apply (planned_days_precede_exam
           Samples.this_morning Samples.two_subjects (Samples.in_days 10)).
  vm_compute. discriminate.
Defined.

End PartitionerFurther.
